(** * DCMRouter: the C-STORE receiver of [receptor.py]

    A shallow embedding of the storage pipeline of [receptor.py]
    ([clean_filename], [shorten_uid], [create_safe_path],
    [get_patient_folder_name], [handle_store], [handle_echo]) and the
    properties of it that the specification states.

    Conventions of the embedding.
    - A Python [str] is the list of its Unicode code points ([pystr]).
    - The values a pydicom dataset hands out are [value]s: [None], text
      ([str] and its look-alikes [UID] and [PersonName], whose truth value
      and [str()] are those of their text) and integers ([int]). An
      element of several values (a [MultiValue]) is not among them: the
      properties stated of text are stated of single values. An [IS], of
      which [handle_store] reads the [str()] only, is given by the text
      of that [str()].
    - The file system, the generator of unique identifiers and the log are
      threaded through a state-and-exception monad [M]; what the operating
      system decides (refusing a [mkdir], failing a write, refusing an
      [unlink]) is read from an environment [Env], over which the
      properties are quantified.
    - [exists()] and the [is_dir()] inside [mkdir] answer from the disk of
      the model. pathlib lets them raise when the operating system refuses
      the look-up itself (a directory that may not be searched, a name that
      is too long), and no environment of the model does that. What is
      stated below of a call that goes through such a look-up therefore
      takes the outcome of the look-up, or of [create_safe_path], as a
      hypothesis, or it holds whichever way the look-up ends.
    - Paths are those of pathlib in its POSIX flavour.
    - Logging setup and [start_server] hand over to the logging module and
      to pynetdicom and are not part of the embedding. *)

From Stdlib Require Import ZArith NArith List String Ascii DecimalString Lia.
From stdpp Require Import base gmap strings list fin_maps.

Import ListNotations.
Local Open Scope Z_scope.
Local Open Scope list_scope.

(** ** Python strings *)

(** A [str]: its code points, in order. *)
Abbreviation pystr := (list N).

(** The text of a source literal. *)
Definition lit (s : string) : pystr :=
  map N_of_ascii (list_ascii_of_string s).

(** [str.isspace] on one character: the white space of CPython's
    [_PyUnicode_IsWhitespace]. *)
Definition isspace (c : N) : bool :=
  ((9 <=? c) && (c <=? 13) || (28 <=? c) && (c <=? 32)
   || (c =? 133) || (c =? 160) || (c =? 5760)
   || (8192 <=? c) && (c <=? 8202) || (c =? 8232) || (c =? 8233)
   || (c =? 8239) || (c =? 8287) || (c =? 12288))%N.

Fixpoint lstrip (s : pystr) : pystr :=
  match s with
  | c :: r => if isspace c then lstrip r else s
  | [] => []
  end.

Definition rstrip (s : pystr) : pystr := rev (lstrip (rev s)).

(** [s.strip()] *)
Definition strip (s : pystr) : pystr := rstrip (lstrip s).

(** [s.replace(a, b)] for one-character [a] and [b]. *)
Definition replace_char (a b : N) (s : pystr) : pystr :=
  map (fun c => if (c =? a)%N then b else c) s.

(** The character class of the pattern handed to [re.sub]: backslash,
    slash, star, question mark, colon, double quote, the two angle
    brackets, bar and caret (which is literal there, not being first). *)
Definition problem_chars : list N :=
  [92; 47; 42; 63; 58; 34; 60; 62; 124; 94]%N.

Definition is_problem_char (c : N) : bool :=
  existsb (N.eqb c) problem_chars.

(** [re.sub] of that class by an underscore. *)
Definition re_sub_problem_chars (s : pystr) : pystr :=
  map (fun c => if is_problem_char c then 95%N else c) s.

(** [s[:n]] *)
Definition slice_to (n : nat) (s : pystr) : pystr := firstn n s.

(** [s[-n:]], for [n > 0]. *)
Definition slice_last (n : nat) (s : pystr) : pystr :=
  skipn (length s - n) s.

(** [s.zfill(width)]: pad with zeros on the left, after a leading sign. *)
Definition zfill (width : nat) (s : pystr) : pystr :=
  if (width <=? length s)%nat then s
  else
    let zeros := repeat 48%N (width - length s) in
    match s with
    | c :: r => if ((c =? 43) || (c =? 45))%N then c :: zeros ++ r
                else zeros ++ s
    | [] => zeros
    end.

(** ** Python values *)

Inductive value : Type :=
| VNone
| VStr (s : pystr)
| VInt (z : Z).

(** [bool(v)] *)
Definition truthy (v : value) : bool :=
  match v with
  | VNone => false
  | VStr s => match s with [] => false | _ => true end
  | VInt z => negb (z =? 0)
  end.

(** [str(v)], which is also what an f-string inserts for [{v}]. *)
Definition py_str (v : value) : pystr :=
  match v with
  | VNone => lit "None"
  | VStr s => s
  | VInt z => lit (NilZero.string_of_int (Z.to_int z))
  end.

(** Exceptions; every one of them is an instance of [Exception].
    [is_OSError] tells [OSError] and its subclasses; [OSError] itself
    stands for the errors of the operating system that have no case of
    their own here (permission denied, read-only or full disk, a name the
    system does not accept). *)
Inductive exn : Type :=
| TypeError
| ValueError
| DecodeError
| FileNotFoundError
| FileExistsError
| NotADirectoryError
| IsADirectoryError
| OSError.

Definition is_OSError (e : exn) : bool :=
  match e with
  | TypeError | ValueError | DecodeError => false
  | _ => true
  end.

Definition is_FileNotFoundError (e : exn) : bool :=
  match e with
  | FileNotFoundError => true
  | _ => false
  end.

Inductive result (A : Type) : Type :=
| Ok (a : A)
| Raise (e : exn).
Arguments Ok {A} a.
Arguments Raise {A} e.

(** [len(v)]: only text has a length. *)
Definition py_len (v : value) : result nat :=
  match v with
  | VStr s => Ok (length s)
  | VNone | VInt _ => Raise TypeError
  end.

(** ** Configuration *)

Module DICOMServerConfig.
Definition OUTPUT_FOLDER : pystr := lit "estudios_recibidos".
Definition AE_TITLE : pystr := lit "MI_RECEPTOR".
Definition PORT : Z := 11112.
Definition MAX_PDU : Z := 0.
Definition MAX_FOLDER_LENGTH : nat := 50.
End DICOMServerConfig.

(** ** The identifier sanitizer *)

Definition clean_filename (name : value) : pystr :=
  if negb (truthy name) then lit "Sin_nombre"
  else
    let name := py_str name in
    let name := re_sub_problem_chars name in
    let name := strip (replace_char 32 95 name) in
    slice_to DICOMServerConfig.MAX_FOLDER_LENGTH name.

Definition shorten_uid (uid : value) : result value :=
  match py_len uid with
  | Raise e => Raise e
  | Ok n =>
      if (12 <? n)%nat
      then match uid with
           | VStr s => Ok (VStr (slice_last 12 s))
           | _ => Raise TypeError
           end
      else Ok uid
  end.

(** ** Datasets and events *)

(** The file meta information of an object: its group-2 elements. *)
Abbreviation FileMeta := (gmap string value).

(** A decoded dataset: its elements by keyword, and the [file_meta]
    attribute once it has been set. *)
Record Dataset : Type := {
  ds_elements : gmap string value;
  ds_file_meta : option FileMeta
}.

(** [ds.get(key, default)]: the value of the element when the dataset has
    one (empty or not), the default otherwise. *)
Definition ds_get (ds : Dataset) (key : string) (dflt : value) : value :=
  default dflt (ds_elements ds !! key).

(** [ds.file_meta = meta] *)
Definition set_file_meta (ds : Dataset) (meta : FileMeta) : Dataset :=
  {| ds_elements := ds_elements ds; ds_file_meta := Some meta |}.

(** The event of a C-STORE request. Its [dataset] and [file_meta] are
    properties that decode what was received, and may raise. *)
Record Event : Type := {
  dataset : result Dataset;
  file_meta : result FileMeta
}.

(** ** Paths *)

(** An absolute path: its components below the root. *)
Abbreviation Path := (list pystr).

(** The components of the text [s] between slashes. *)
Fixpoint split_slash (s : pystr) : list pystr :=
  match s with
  | [] => [[]]
  | c :: r =>
      if (c =? 47)%N then [] :: split_slash r
      else match split_slash r with
           | h :: t => (c :: h) :: t
           | [] => [[c]]
           end
  end.

(** pathlib drops empty components and the components that are one dot. *)
Definition kept_component (c : pystr) : bool :=
  match c with
  | [] => false
  | [46%N] => false
  | _ => true
  end.

Definition path_parts (s : pystr) : list pystr :=
  List.filter kept_component (split_slash s).

(** [p / s] in the POSIX flavour: a segment that starts with a slash is
    absolute and replaces [p]; the components [..] are kept as they are,
    as pathlib keeps them. (A root of exactly two slashes, which pathlib
    tells from the root of one slash, is the root here.) *)
Definition joinpath (p : Path) (s : pystr) : Path :=
  match s with
  | 47%N :: _ => path_parts s
  | _ => p ++ path_parts s
  end.

(** [p.parent] *)
Definition parent (p : Path) : Path := removelast p.

(** ** The world: file system, identifier generator, log *)

(** What a file holds: an object written completely by [save_as], or the
    remains of a write that failed. *)
Inductive content : Type :=
| Complete (ds : Dataset)
| Partial.

Inductive level : Type := INFO | WARNING | ERROR.

(** What the program did to the outside, in order. *)
Inductive effect : Type :=
| GenerateUid (uid : pystr)
| Mkdir (p : Path)
| ExistsCheck (p : Path)
| SaveAs (p : Path)
| Unlink (p : Path)
| Log (lvl : level) (msg : string).

Record World : Type := {
  cwd : Path;
  dirs : gset Path;
  files : gmap Path content;
  uid_calls : nat;
  trace : list effect
}.

Definition record_effect (e : effect) (w : World) : World :=
  {| cwd := cwd w; dirs := dirs w; files := files w;
     uid_calls := uid_calls w; trace := trace w ++ [e] |}.

Definition set_dirs (d : gset Path) (w : World) : World :=
  {| cwd := cwd w; dirs := d; files := files w;
     uid_calls := uid_calls w; trace := trace w |}.

Definition set_files (f : gmap Path content) (w : World) : World :=
  {| cwd := cwd w; dirs := dirs w; files := f;
     uid_calls := uid_calls w; trace := trace w |}.

Definition set_uid_calls (n : nat) (w : World) : World :=
  {| cwd := cwd w; dirs := dirs w; files := files w;
     uid_calls := n; trace := trace w |}.

Definition is_dir (w : World) (p : Path) : bool :=
  bool_decide (p = [] \/ p ∈ dirs w).

Definition is_file (w : World) (p : Path) : bool :=
  bool_decide (is_Some (files w !! p)).

(** Whether something, file or directory, is at [p]. *)
Definition path_exists (w : World) (p : Path) : bool :=
  is_dir w p || is_file w p.

(** What pydicom makes of a write: it writes the object, or it raises,
    before the file is opened or after, and then the file is left with what
    had been written. *)
Inductive save_outcome : Type :=
| Saved
| SaveFailed (e : exn) (leaves_partial_file : bool).

(** [open(p, "wb")]: the file can be created or truncated when [p] is not
    a directory and the parent of [p] is one. *)
Definition open_for_writing (w : World) (p : Path) : result unit :=
  if is_dir w p then Raise IsADirectoryError
  else if is_file w (parent p) then Raise NotADirectoryError
  else if negb (is_dir w (parent p)) then Raise FileNotFoundError
  else Ok tt.

(** What is outside the program's control. The operating system may refuse
    an operation for reasons of its own (permissions, a full disk, a name
    it does not accept); it decides knowing the whole history. *)
Record Env : Type := {
  uid_source : nat -> pystr;
  mkdir_refused : World -> Path -> bool;
  save_result : World -> Path -> Dataset -> save_outcome;
  unlink_refused : World -> Path -> bool
}.

(** ** State and exceptions *)

Definition M (A : Type) : Type := World -> result A * World.

Definition ret {A} (a : A) : M A := fun w => (Ok a, w).

Definition raise {A} (e : exn) : M A := fun w => (Raise e, w).

Definition lift {A} (r : result A) : M A := fun w => (r, w).

Definition bind {A B} (m : M A) (k : A -> M B) : M B :=
  fun w =>
    match m w with
    | (Ok a, w') => k a w'
    | (Raise e, w') => (Raise e, w')
    end.

(** [try: m  except Exception as e: h e], and the bare [except:] as well:
    every exception of the model is an [Exception]. *)
Definition try_except {A} (m : M A) (h : exn -> M A) : M A :=
  fun w =>
    match m w with
    | (Ok a, w') => (Ok a, w')
    | (Raise e, w') => h e w'
    end.

Notation "'let*' x ':=' m 'in' k" := (bind m (fun x => k))
  (at level 10, x name, m at level 100, k at level 200).
Notation "m '>>' k" := (bind m (fun _ => k))
  (at level 80, right associativity).

(** [logger.info], [logger.warning], [logger.error]: the level and the
    fixed part of the message. *)
Definition log (lvl : level) (msg : string) : M unit :=
  fun w => (Ok tt, record_effect (Log lvl msg) w).

Section Receptor.

Context (env : Env).

(** [generate_uid()] of pydicom: the next identifier of the source. *)
Definition generate_uid : M value :=
  fun w =>
    let uid := uid_source env (uid_calls w) in
    (Ok (VStr uid),
     set_uid_calls (S (uid_calls w)) (record_effect (GenerateUid uid) w)).

(** [os.mkdir(p)] *)
Definition os_mkdir (p : Path) : M unit :=
  fun w =>
    let w := record_effect (Mkdir p) w in
    if mkdir_refused env w p then (Raise OSError, w)
    else if is_dir w p || is_file w p then (Raise FileExistsError, w)
    else if is_file w (parent p) then (Raise NotADirectoryError, w)
    else if negb (is_dir w (parent p)) then (Raise FileNotFoundError, w)
    else (Ok tt, set_dirs ({[p]} ∪ dirs w) w).

(** [p.mkdir(parents=False, exist_ok=exist_ok)] *)
Definition mkdir_no_parents (p : Path) (exist_ok : bool) : M unit :=
  try_except (os_mkdir p)
    (fun e w =>
       if is_OSError e && negb (is_FileNotFoundError e)
          && exist_ok && is_dir w p
       then (Ok tt, w) else (Raise e, w)).

(** [p.mkdir(parents=True, exist_ok=exist_ok)] of pathlib, for the path
    whose components, last first, are [rp]. *)
Fixpoint mkdir_parents (rp : list pystr) (exist_ok : bool) : M unit :=
  let p := rev rp in
  try_except (os_mkdir p)
    (fun e w =>
       if is_FileNotFoundError e then
         match rp with
         | [] => (Raise e, w)
         | _ :: rparent =>
             (mkdir_parents rparent true >> mkdir_no_parents p exist_ok) w
         end
       else if is_OSError e && exist_ok && is_dir w p then (Ok tt, w)
       else (Raise e, w)).

(** [p.mkdir(exist_ok=True, parents=True)] *)
Definition mkdir (p : Path) : M unit := mkdir_parents (rev p) true.

(** [p.exists()] *)
Definition exists_ (p : Path) : M bool :=
  fun w =>
    let w := record_effect (ExistsCheck p) w in
    (Ok (path_exists w p), w).

(** [ds.save_as(p, write_like_original=True)]: unless pydicom raises
    beforehand, the file is opened, which the disk may not allow, and then
    written, completely or not. *)
Definition save_as (ds : Dataset) (p : Path) : M unit :=
  fun w =>
    let w := record_effect (SaveAs p) w in
    match save_result env w p ds with
    | SaveFailed e false => (Raise e, w)
    | outcome =>
        match open_for_writing w p with
        | Raise e => (Raise e, w)
        | Ok _ =>
            match outcome with
            | Saved => (Ok tt, set_files (<[p := Complete ds]> (files w)) w)
            | SaveFailed e _ =>
                (Raise e, set_files (<[p := Partial]> (files w)) w)
            end
        end
    end.

(** [p.unlink(missing_ok=True)] *)
Definition unlink (p : Path) : M unit :=
  fun w =>
    let w := record_effect (Unlink p) w in
    if unlink_refused env w p then (Raise OSError, w)
    else if is_dir w p then (Raise IsADirectoryError, w)
    else (Ok tt, set_files (delete p (files w)) w).

(** [Path(folder).absolute()] *)
Definition absolute (folder : pystr) : M Path :=
  fun w => (Ok (joinpath (cwd w) folder), w).

(** *** [create_safe_path] *)

(** The loop of [create_safe_path], from the path reached so far. *)
Fixpoint create_safe_path_loop (path : Path) (subfolders : list pystr)
  : M (option Path) :=
  match subfolders with
  | [] => ret (Some path)
  | folder :: rest =>
      let path := joinpath path folder in
      let* made :=
        try_except (mkdir path >> ret true)
          (fun e => log ERROR "No se pudo crear directorio" >> ret false) in
      if made : bool then create_safe_path_loop path rest else ret None
  end.

Definition create_safe_path (base_folder : Path) (subfolders : list pystr)
  : M (option Path) :=
  create_safe_path_loop base_folder subfolders.

(** *** [get_patient_folder_name] *)

Definition get_patient_folder_name (ds : Dataset) : pystr :=
  let patient_id := clean_filename (ds_get ds "PatientID" (VStr (lit "Sin_ID"))) in
  let patient_name :=
    clean_filename (ds_get ds "PatientName" (VStr (lit "Sin_nombre"))) in
  patient_name ++ lit "_" ++ patient_id.

(** *** [handle_store] *)

(** The local variables of [handle_store] once the metadata have been
    read. *)
Record Locals : Type := {
  ds : Dataset;
  patient_folder : pystr;
  study_uid : value;
  series_uid : value;
  sop_instance_uid : value;
  modality : value;
  instance_number : pystr;
  study_date : value
}.

(** The first part of the body of [handle_store]: from [event.dataset] to
    [study_date]. The default [generate_uid()] of each [ds.get] is an
    argument, so it is evaluated whether the element is there or not. *)
Definition read_metadata (event : Event) : M Locals :=
  let* ds0 := lift (dataset event) in
  let* meta := lift (file_meta event) in
  let ds := set_file_meta ds0 meta in
  let patient_folder := get_patient_folder_name ds in
  let* g1 := generate_uid in
  let* study_uid := lift (shorten_uid (ds_get ds "StudyInstanceUID" g1)) in
  let* g2 := generate_uid in
  let* series_uid := lift (shorten_uid (ds_get ds "SeriesInstanceUID" g2)) in
  let* g3 := generate_uid in
  let* sop_instance_uid :=
    lift (shorten_uid (ds_get ds "SOPInstanceUID" g3)) in
  let modality := ds_get ds "Modality" (VStr (lit "XX")) in
  let instance_number :=
    zfill 4 (py_str (ds_get ds "InstanceNumber" (VStr (lit "0")))) in
  let study_date := ds_get ds "StudyDate" (VStr []) in
  ret {| ds := ds; patient_folder := patient_folder;
         study_uid := study_uid; series_uid := series_uid;
         sop_instance_uid := sop_instance_uid; modality := modality;
         instance_number := instance_number; study_date := study_date |}.

(** The three f-strings of [handle_store]. *)
Definition study_folder (l : Locals) : pystr :=
  py_str (study_date l) ++ lit "_E" ++ py_str (study_uid l).

Definition series_folder (l : Locals) : pystr :=
  py_str (modality l) ++ lit "_S" ++ py_str (series_uid l).

Definition filename (l : Locals) : pystr :=
  py_str (modality l) ++ lit "_" ++ instance_number l ++ lit "_"
  ++ py_str (sop_instance_uid l) ++ lit ".dcm".

(** The body of the outer [try] of [handle_store]. *)
Definition handle_store_body (event : Event) : M Z :=
  let* l := read_metadata event in
  let* base_path := absolute DICOMServerConfig.OUTPUT_FOLDER in
  let* safe_path :=
    create_safe_path base_path
      [patient_folder l; study_folder l; series_folder l] in
  match safe_path with
  | None =>
      log ERROR "No se pudo crear la estructura de directorios" >>
      ret 0xC001
  | Some safe_path =>
      let filepath := joinpath safe_path (filename l) in
      let* found := exists_ filepath in
      if found : bool then
        log WARNING "Archivo ya existe" >> ret 0x0000
      else
        try_except
          (save_as (ds l) filepath >>
           log INFO "Archivo DICOM guardado" >>
           ret 0x0000)
          (fun save_error =>
             log ERROR "Error al guardar" >>
             try_except (unlink filepath) (fun _ => ret tt) >>
             ret 0xC002)
  end.

Definition handle_store (event : Event) : M Z :=
  try_except (handle_store_body event)
    (fun e => log ERROR "Error en handle_store" >> ret 0xC003).

(** *** [handle_echo] *)

Definition handle_echo : M Z :=
  log INFO "Solicitud C-ECHO recibida" >> ret 0x0000.

End Receptor.

(** * The vocabulary of the properties *)

(** ** Characters *)

(** A character that is neither one of the ten of the pattern nor a
    space. *)
Definition is_clean_char (c : N) : bool :=
  negb (is_problem_char c) && negb (c =? 32)%N.

(** What the two replacements of [clean_filename] do to one character. *)
Definition underscore_problem_char (c : N) : N :=
  if is_problem_char c || (c =? 32)%N then 95%N else c.

(** ** Worlds *)

(** [w'] has the working directory, the files and the identifier count of
    [w], and at least its directories. *)
Definition grows (w w' : World) : Prop :=
  cwd w' = cwd w /\ files w' = files w /\ uid_calls w' = uid_calls w
  /\ dirs w ⊆ dirs w'.

(** The same, with exactly the directories of [w]: only the trace may
    differ. *)
Definition same_fs (w w' : World) : Prop :=
  cwd w' = cwd w /\ files w' = files w /\ uid_calls w' = uid_calls w
  /\ dirs w' = dirs w.

(** The world once a line has been logged. *)
Definition logged (lvl : level) (msg : string) (w : World) : World :=
  record_effect (Log lvl msg) w.

(** The world once [create_safe_path] has logged that a [mkdir] failed. *)
Definition mkdir_error_logged (w : World) : World :=
  logged ERROR "No se pudo crear directorio" w.

(** The world once [generate_uid()] has been called. *)
Definition uid_generated (env : Env) (w : World) : World :=
  snd (generate_uid env w).

(** ** The locals of [handle_store] *)

(** [base_path] of [handle_store]. *)
Definition base_path (w : World) : Path :=
  joinpath (cwd w) DICOMServerConfig.OUTPUT_FOLDER.

(** The three levels handed to [create_safe_path]. *)
Definition folders (l : Locals) : list pystr :=
  [patient_folder l; study_folder l; series_folder l].

(** The directories that [create_safe_path] makes sure of, from [path]
    down. *)
Fixpoint levels (path : Path) (subfolders : list pystr) : list Path :=
  match subfolders with
  | [] => []
  | folder :: rest =>
      joinpath path folder :: levels (joinpath path folder) rest
  end.

(** The path at which [handle_store] looks for, and writes, the object. *)
Definition target_path (w : World) (l : Locals) : Path :=
  joinpath
    (joinpath
       (joinpath (joinpath (base_path w) (patient_folder l))
          (study_folder l))
       (series_folder l))
    (filename l).

(** The four segments of the storage location. *)
Definition storage_location (l : Locals) : pystr * pystr * pystr * pystr :=
  (patient_folder l, study_folder l, series_folder l, filename l).

(** The location that [handle_store] resolves for [event] in [w], or the
    exception that ends the resolution. *)
Definition resolved_location (env : Env) (event : Event) (w : World)
  : result (pystr * pystr * pystr * pystr) :=
  match fst (read_metadata env event w) with
  | Ok l => Ok (storage_location l)
  | Raise e => Raise e
  end.

(** What reading the metadata of [event] in [w] amounts to when it
    succeeds with the locals [l]. *)
Definition metadata_read (env : Env) (event : Event) (w : World)
    (l : Locals) : Prop :=
  exists (d : Dataset) (meta : FileMeta),
    dataset event = Ok d /\ file_meta event = Ok meta
    /\ ds l = set_file_meta d meta
    /\ patient_folder l = get_patient_folder_name (ds l)
    /\ shorten_uid (ds_get (ds l) "StudyInstanceUID"
                      (VStr (uid_source env (uid_calls w))))
       = Ok (study_uid l)
    /\ shorten_uid (ds_get (ds l) "SeriesInstanceUID"
                      (VStr (uid_source env (S (uid_calls w)))))
       = Ok (series_uid l)
    /\ shorten_uid (ds_get (ds l) "SOPInstanceUID"
                      (VStr (uid_source env (S (S (uid_calls w))))))
       = Ok (sop_instance_uid l)
    /\ modality l = ds_get (ds l) "Modality" (VStr (lit "XX"))
    /\ instance_number l
       = zfill 4 (py_str (ds_get (ds l) "InstanceNumber" (VStr (lit "0"))))
    /\ study_date l = ds_get (ds l) "StudyDate" (VStr []).

(** ** Datasets *)

(** The dataset has an element for each of the three identifiers. *)
Definition has_uids (d : Dataset) : Prop :=
  is_Some (ds_elements d !! "StudyInstanceUID")
  /\ is_Some (ds_elements d !! "SeriesInstanceUID")
  /\ is_Some (ds_elements d !! "SOPInstanceUID").

Definition event_has_uids (event : Event) : Prop :=
  forall d, dataset event = Ok d -> has_uids d.

(** The element [key] is in the dataset, or the identifiers [g] and [g']
    generated in its place in two calls are the same. *)
Definition uid_settled (d : Dataset) (key : string) (g g' : pystr) : Prop :=
  is_Some (ds_elements d !! key) \/ g = g'.

(** The same of each of the three identifiers, for a resolution in [w1]
    under [env1] and one in [w2] under [env2]: the identifiers generated
    are the next three of the source. *)
Definition uids_settled (env1 env2 : Env) (event : Event) (w1 w2 : World)
  : Prop :=
  forall d, dataset event = Ok d ->
    uid_settled d "StudyInstanceUID"
      (uid_source env1 (uid_calls w1)) (uid_source env2 (uid_calls w2))
    /\ uid_settled d "SeriesInstanceUID"
         (uid_source env1 (S (uid_calls w1)))
         (uid_source env2 (S (uid_calls w2)))
    /\ uid_settled d "SOPInstanceUID"
         (uid_source env1 (S (S (uid_calls w1))))
         (uid_source env2 (S (S (uid_calls w2)))).

(** The element [key] is not in the dataset. *)
Definition uid_absent (d : Dataset) (key : string) : Prop :=
  ds_elements d !! key = None.

(** The element [key] is not in the dataset, or it holds text. *)
Definition uid_usable (d : Dataset) (key : string) : Prop :=
  match ds_elements d !! key with
  | Some (VStr _) | None => True
  | Some _ => False
  end.

(** ** Concrete environments, disks and instances *)

(** An environment in which nothing is refused and nothing fails; the
    k-th generated identifier is [2.25.k]. *)
Definition quiet_env : Env :=
  {| uid_source := fun k =>
       lit "2.25." ++ lit (NilZero.string_of_uint (Nat.to_uint k));
     mkdir_refused := fun _ _ => false;
     save_result := fun _ _ _ => Saved;
     unlink_refused := fun _ _ => false |}.

(** An environment that refuses to create any directory whose last
    component is [name]. *)
Definition refusing_env (name : pystr) : Env :=
  {| uid_source := uid_source quiet_env;
     mkdir_refused := fun _ p => bool_decide (last p = Some name);
     save_result := fun _ _ _ => Saved;
     unlink_refused := fun _ _ => false |}.

(** An environment in which every write fails and leaves a partial file,
    and in which [unlink] is refused or not. *)
Definition failing_write_env (unlink_fails : bool) : Env :=
  {| uid_source := uid_source quiet_env;
     mkdir_refused := fun _ _ => false;
     save_result := fun _ _ _ => SaveFailed OSError true;
     unlink_refused := fun _ _ => unlink_fails |}.

(** A disk with the working directory [/srv] and nothing else. *)
Definition empty_disk : World :=
  {| cwd := [lit "srv"]; dirs := {[ [lit "srv"] ]}; files := ∅;
     uid_calls := 0; trace := [] |}.

(** The event of a dataset that decodes to the elements [elems]. *)
Definition event_of (elems : list (string * value)) : Event :=
  {| dataset := Ok {| ds_elements := list_to_map elems;
                      ds_file_meta := None |};
     file_meta := Ok ∅ |}.

(** The instance of scenario A of the specification: it has a study
    identifier, and neither a series nor a SOP instance identifier. *)
Definition scenario_A : Event :=
  event_of
    [("PatientID", VStr (lit "P1"));
     ("PatientName", VStr (lit "John Doe"));
     ("StudyInstanceUID", VStr (lit "1.2.840.10008.999999999999"));
     ("Modality", VStr (lit "CT"));
     ("InstanceNumber", VStr (lit "3"));
     ("StudyDate", VStr (lit "20240101"))].

(** The same instance with its three identifiers. *)
Definition scenario_B : Event :=
  event_of
    [("PatientID", VStr (lit "P1"));
     ("PatientName", VStr (lit "John Doe"));
     ("StudyInstanceUID", VStr (lit "1.2.840.10008.999999999999"));
     ("SeriesInstanceUID", VStr (lit "1.2.840.10008.5.1"));
     ("SOPInstanceUID", VStr (lit "1.2.840.10008.5.1.7"));
     ("Modality", VStr (lit "CT"));
     ("InstanceNumber", VStr (lit "3"));
     ("StudyDate", VStr (lit "20240101"))].

(** The locals of [handle_store] on scenario B. *)
Definition scenario_B_locals : Locals :=
  {| ds := {| ds_elements :=
                list_to_map
                  [("PatientID", VStr (lit "P1"));
                   ("PatientName", VStr (lit "John Doe"));
                   ("StudyInstanceUID",
                    VStr (lit "1.2.840.10008.999999999999"));
                   ("SeriesInstanceUID", VStr (lit "1.2.840.10008.5.1"));
                   ("SOPInstanceUID", VStr (lit "1.2.840.10008.5.1.7"));
                   ("Modality", VStr (lit "CT"));
                   ("InstanceNumber", VStr (lit "3"));
                   ("StudyDate", VStr (lit "20240101"))];
              ds_file_meta := Some ∅ |};
     patient_folder := lit "John_Doe_P1";
     study_uid := VStr (lit "999999999999");
     series_uid := VStr (lit "40.10008.5.1");
     sop_instance_uid := VStr (lit ".10008.5.1.7");
     modality := VStr (lit "CT");
     instance_number := lit "0003";
     study_date := VStr (lit "20240101") |}.

(** Its series directory, and its target file. *)
Definition scenario_B_dir : Path :=
  [lit "srv"; lit "estudios_recibidos"; lit "John_Doe_P1";
   lit "20240101_E999999999999"; lit "CT_S40.10008.5.1"].

Definition scenario_B_file : Path :=
  scenario_B_dir ++ [lit "CT_0003_.10008.5.1.7.dcm"].

(** The world once its metadata are read from the empty disk, and once
    its directories are ensured. *)
Definition scenario_B_read : World :=
  snd (read_metadata quiet_env scenario_B empty_disk).

Definition scenario_B_ensured : World :=
  snd (create_safe_path quiet_env (base_path scenario_B_read)
         (folders scenario_B_locals) scenario_B_read).

(** An instance whose three identifiers are there and empty, and that has
    no study date. *)
Definition scenario_empty_uids : Event :=
  event_of
    [("PatientID", VStr (lit "P1"));
     ("PatientName", VStr (lit "John Doe"));
     ("StudyInstanceUID", VStr []);
     ("SeriesInstanceUID", VStr []);
     ("SOPInstanceUID", VStr []);
     ("Modality", VStr (lit "CT"))].

(** An instance whose Modality and StudyDate have a colon, a star and
    slashes. *)
Definition scenario_unsafe_modality : Event :=
  event_of
    [("PatientID", VStr (lit "P1"));
     ("PatientName", VStr (lit "John Doe"));
     ("StudyInstanceUID", VStr (lit "1.2.840.10008.999999999999"));
     ("SeriesInstanceUID", VStr (lit "1.2.840.10008.5.1"));
     ("SOPInstanceUID", VStr (lit "1.2.840.10008.5.1.7"));
     ("Modality", VStr (lit "C:T/x*"));
     ("InstanceNumber", VStr (lit "3"));
     ("StudyDate", VStr (lit "2024/01"))].


(** An instance whose StudyInstanceUID has no value ([None]), and an
    event whose dataset cannot be decoded. *)
Definition scenario_none_uid : Event :=
  event_of
    [("PatientID", VStr (lit "P1"));
     ("StudyInstanceUID", VNone)].

Definition scenario_undecodable : Event :=
  {| dataset := Raise DecodeError; file_meta := Ok ∅ |}.

(** ** Further vocabulary: names *)

(** White space that [clean_filename] strips: any white space but the
    space, which has become an underscore by then. *)
Definition is_stripped_char (c : N) : bool :=
  isspace c && negb (c =? 32)%N.

(** A character that [clean_filename] keeps wherever it stands: neither a
    character of the pattern nor white space. *)
Definition is_kept_char (c : N) : bool :=
  negb (is_problem_char c) && negb (isspace c).

(** The text has no slash. *)
Definition no_slash (s : pystr) : bool :=
  forallb (fun c => negb (c =? 47)%N) s.

(** The text of [ds.get("PatientName", "Sin_nombre")] once cleaned. *)
Definition patient_name_token (d : Dataset) : pystr :=
  clean_filename (ds_get d "PatientName" (VStr (lit "Sin_nombre"))).

(** A dataset with these two patient elements and nothing else. *)
Definition patient_dataset (name id : pystr) : Dataset :=
  {| ds_elements :=
       list_to_map [("PatientName", VStr name); ("PatientID", VStr id)];
     ds_file_meta := None |}.

(** ** Further vocabulary: requests in a row *)

(** The handler called on one object after the other, as the protocol
    engine does for the objects it receives: the codes returned, in
    order, and the world left. *)
Fixpoint handle_store_all (env : Env) (events : list Event) (w : World)
  : list (result Z) * World :=
  match events with
  | [] => ([], w)
  | event :: rest =>
      let '(r, w1) := handle_store env event w in
      let '(rs, w2) := handle_store_all env rest w1 in
      (r :: rs, w2)
  end.

(** ** Further vocabulary: instances *)

(** The element [key] is not in the dataset, or it holds text. *)
Definition uid_is_text_or_absent (d : Dataset) (key : string) : bool :=
  match ds_elements d !! key with
  | Some (VStr _) | None => true
  | Some _ => false
  end.

(** The dataset and the file meta information of the event decode, and
    each of the three identifiers is text or absent. *)
Definition metadata_readable (event : Event) : bool :=
  match dataset event, file_meta event with
  | Ok d, Ok _ =>
      uid_is_text_or_absent d "StudyInstanceUID"
      && uid_is_text_or_absent d "SeriesInstanceUID"
      && uid_is_text_or_absent d "SOPInstanceUID"
  | _, _ => false
  end.

(** None of the texts that go into the study folder, the series folder
    and the filename has a slash. *)
Definition slash_free (l : Locals) : bool :=
  no_slash (py_str (study_date l)) && no_slash (py_str (study_uid l))
  && no_slash (py_str (modality l)) && no_slash (py_str (series_uid l))
  && no_slash (instance_number l) && no_slash (py_str (sop_instance_uid l)).

(** The instance of scenario B with a Modality that begins with a
    slash. *)
Definition scenario_absolute_modality : Event :=
  event_of
    [("PatientID", VStr (lit "P1"));
     ("PatientName", VStr (lit "John Doe"));
     ("StudyInstanceUID", VStr (lit "1.2.840.10008.999999999999"));
     ("SeriesInstanceUID", VStr (lit "1.2.840.10008.5.1"));
     ("SOPInstanceUID", VStr (lit "1.2.840.10008.5.1.7"));
     ("Modality", VStr (lit "/tmp/x"));
     ("InstanceNumber", VStr (lit "3"));
     ("StudyDate", VStr (lit "20240101"))].

(** ** Further vocabulary: characters in paths *)

(** The character [c] stands in a component of the path [p]. *)
Definition occurs_in_path (c : N) (p : Path) : bool :=
  existsb (existsb (N.eqb c)) p.

(** The text begins with a slash: joined to a path, it replaces it. *)
Definition begins_with_slash (s : pystr) : bool :=
  match s with
  | 47%N :: _ => true
  | _ => false
  end.

(** The path at which [handle_store] looks for, and writes, the object of
    [event], or the exception that ends the reading of its metadata. *)
Definition storage_path (env : Env) (event : Event) (w : World)
  : result Path :=
  match read_metadata env event w with
  | (Ok l, w0) => Ok (target_path w0 l)
  | (Raise e, _) => Raise e
  end.

(** The instance of scenario B with a star in its StudyDate and a
    Modality that begins with a slash. *)
Definition scenario_starred_date : Event :=
  event_of
    [("PatientID", VStr (lit "P1"));
     ("PatientName", VStr (lit "John Doe"));
     ("StudyInstanceUID", VStr (lit "1.2.840.10008.999999999999"));
     ("SeriesInstanceUID", VStr (lit "1.2.840.10008.5.1"));
     ("SOPInstanceUID", VStr (lit "1.2.840.10008.5.1.7"));
     ("Modality", VStr (lit "/tmp/x"));
     ("InstanceNumber", VStr (lit "3"));
     ("StudyDate", VStr (lit "2024*01"))].

(** * Properties *)

(** ** The identifier sanitizer *)

Section Sanitizer.

Lemma lstrip_Forall (P : N -> Prop) (s : pystr) :
  Forall P s -> Forall P (lstrip s).
Proof.
  induction 1 as [|c r Hc Hr IH]; simpl; [constructor|].
  destruct (isspace c); [exact IH | constructor; assumption].
Qed.

Lemma strip_Forall (P : N -> Prop) (s : pystr) :
  Forall P s -> Forall P (strip s).
Proof.
  intros H. unfold strip, rstrip.
  apply Forall_rev, lstrip_Forall, Forall_rev, lstrip_Forall, H.
Qed.

Lemma slice_to_Forall (P : N -> Prop) (n : nat) (s : pystr) :
  Forall P s -> Forall P (slice_to n s).
Proof. unfold slice_to. apply Forall_take. Qed.

Lemma slice_to_length (n : nat) (s : pystr) :
  (length (slice_to n s) <= n)%nat.
Proof. unfold slice_to. rewrite length_firstn. lia. Qed.

Lemma replacements_fused (s : pystr) :
  replace_char 32 95 (re_sub_problem_chars s)
  = map underscore_problem_char s.
Proof.
  unfold replace_char, re_sub_problem_chars. rewrite map_map.
  apply map_ext. intros c. unfold underscore_problem_char.
  destruct (is_problem_char c); simpl; [reflexivity|].
  destruct (c =? 32)%N; reflexivity.
Qed.

Lemma underscore_problem_char_clean (c : N) :
  is_clean_char (underscore_problem_char c) = true.
Proof.
  unfold underscore_problem_char.
  destruct (is_problem_char c) eqn:Hp; simpl; [reflexivity|].
  destruct (c =? 32)%N eqn:Hs; [reflexivity|].
  unfold is_clean_char. rewrite Hp, Hs. reflexivity.
Qed.

Lemma clean_filename_text (name : value) :
  truthy name = true ->
  clean_filename name
  = slice_to DICOMServerConfig.MAX_FOLDER_LENGTH
      (strip (map underscore_problem_char (py_str name))).
Proof.
  intros H. unfold clean_filename. rewrite H. simpl negb. cbv iota.
  rewrite replacements_fused. reflexivity.
Qed.

Lemma clean_filename_fallback (name : value) :
  truthy name = false -> clean_filename name = lit "Sin_nombre".
Proof. intros H. unfold clean_filename. rewrite H. reflexivity. Qed.

(** The length cap holds for every input. *)
Lemma clean_filename_length (name : value) :
  (length (clean_filename name) <= DICOMServerConfig.MAX_FOLDER_LENGTH)%nat.
Proof.
  destruct (truthy name) eqn:H.
  - rewrite clean_filename_text by assumption. apply slice_to_length.
  - rewrite clean_filename_fallback by assumption.
    apply Nat.leb_le. reflexivity.
Qed.

(** [None] and the empty text give the fallback token. *)
Lemma clean_filename_missing :
  clean_filename VNone = lit "Sin_nombre"
  /\ clean_filename (VStr []) = lit "Sin_nombre".
Proof. split; reflexivity. Qed.

(** C4 (the code departs from it). The emptiness test of [clean_filename]
    comes before the cleaning, so a name made of white space other than
    spaces passes it and is then stripped to nothing: a single tab is
    sanitized to the empty string, although the input is neither empty nor
    missing. The cap of 50 characters holds ([clean_filename_length]). *)
Theorem clean_filename_tab_is_empty :
  truthy (VStr [9%N]) = true /\ clean_filename (VStr [9%N]) = [].
Proof. split; reflexivity. Qed.

(** C5. The output of the sanitizer never contains one of the characters
    backslash, slash, star, question mark, colon, double quote, angle
    brackets, bar, caret, nor a space, whatever the input; on a non-empty
    text each of them has been replaced by an underscore before the
    stripping and the cut; and the name [Jo:hn/Doe*] becomes
    [Jo_hn_Doe_]. *)
Theorem clean_filename_no_problem_chars :
  (forall name : value, forallb is_clean_char (clean_filename name) = true)
  /\ (forall (c : N) (s : pystr),
        clean_filename (VStr (c :: s))
        = slice_to 50 (strip (map underscore_problem_char (c :: s))))
  /\ clean_filename (VStr (lit "Jo:hn/Doe*")) = lit "Jo_hn_Doe_".
Proof.
  split; [|split].
  - intros name. destruct (truthy name) eqn:H.
    + rewrite clean_filename_text by assumption.
      apply forallb_forall.
      apply (proj1 (List.Forall_forall (fun c => is_clean_char c = true) _)).
      apply slice_to_Forall, strip_Forall.
      apply List.Forall_forall. intros c Hc.
      apply in_map_iff in Hc. destruct Hc as [c0 [<- _]].
      apply underscore_problem_char_clean.
    + rewrite clean_filename_fallback by assumption. reflexivity.
  - intros c s. apply clean_filename_text. reflexivity.
  - reflexivity.
Qed.

End Sanitizer.

(** ** The file system operations *)

Lemma grows_refl (w : World) : grows w w.
Proof. unfold grows. auto. Qed.

Lemma grows_trans (w1 w2 w3 : World) :
  grows w1 w2 -> grows w2 w3 -> grows w1 w3.
Proof.
  unfold grows. intros (?&?&?&?) (?&?&?&?).
  repeat split; try congruence. set_solver.
Qed.

Lemma same_fs_grows (w w' : World) : same_fs w w' -> grows w w'.
Proof.
  unfold same_fs, grows. intros (?&?&?&Hd). rewrite Hd. auto.
Qed.

Lemma same_fs_refl (w : World) : same_fs w w.
Proof. unfold same_fs. auto. Qed.

Lemma record_effect_same_fs (e : effect) (w : World) :
  same_fs w (record_effect e w).
Proof. unfold same_fs. auto. Qed.

Lemma is_dir_true (w : World) (p : Path) :
  is_dir w p = true <-> p = [] \/ p ∈ dirs w.
Proof. unfold is_dir. apply bool_decide_eq_true. Qed.

Lemma is_dir_grows (w w' : World) (p : Path) :
  grows w w' -> is_dir w p = true -> is_dir w' p = true.
Proof.
  intros (_&_&_&Hd). rewrite !is_dir_true. intros [?|?]; [left|right]; auto.
Qed.

Lemma is_dir_same_fs (w w' : World) (p : Path) :
  same_fs w w' -> is_dir w' p = is_dir w p.
Proof. intros (_&_&_&Hd). unfold is_dir. rewrite Hd. reflexivity. Qed.

Lemma is_file_grows (w w' : World) (p : Path) :
  grows w w' -> is_file w' p = is_file w p.
Proof. intros (_&Hf&_). unfold is_file. rewrite Hf. reflexivity. Qed.

Create HintDb fs.

#[local] Hint Resolve grows_refl grows_trans same_fs_grows same_fs_refl
  record_effect_same_fs : fs.

Section Operations.

Context (env : Env).

Ltac unfold_world :=
  unfold grows, same_fs, set_dirs, set_files, record_effect; simpl.

Ltac os_mkdir_raised H :=
  injection H as <- <-;
  split; [apply same_fs_grows, record_effect_same_fs | discriminate].

Lemma os_mkdir_spec (p : Path) (w w' : World) (r : result unit) :
  os_mkdir env p w = (r, w') ->
  grows w w' /\ (r = Ok tt -> is_dir w' p = true).
Proof.
  unfold os_mkdir. intros H.
  destruct (mkdir_refused env _ p); [os_mkdir_raised H|].
  destruct (is_dir _ p || is_file _ p); [os_mkdir_raised H|].
  destruct (is_file _ (parent p)); [os_mkdir_raised H|].
  destruct (negb (is_dir _ (parent p))); [os_mkdir_raised H|].
  injection H as <- <-. split.
  - unfold_world. repeat split. set_solver.
  - intros _. apply is_dir_true. right. simpl. set_solver.
Qed.

Lemma mkdir_no_parents_spec (p : Path) (ok : bool) (w w' : World)
    (r : result unit) :
  mkdir_no_parents env p ok w = (r, w') ->
  grows w w' /\ (r = Ok tt -> is_dir w' p = true).
Proof.
  unfold mkdir_no_parents, try_except. intros H.
  destruct (os_mkdir env p w) as [[[]|e] w1] eqn:Hm;
    apply os_mkdir_spec in Hm; destruct Hm as [Hg Hd].
  - simplify_eq. auto.
  - destruct (is_OSError e && negb (is_FileNotFoundError e) && ok
              && is_dir w1 p) eqn:Hc; simplify_eq.
    + split; [assumption|]. intros _.
      apply andb_prop in Hc. apply Hc.
    + split; [assumption|discriminate].
Qed.

Lemma mkdir_parents_eq (rp : list pystr) (ok : bool) :
  mkdir_parents env rp ok
  = try_except (os_mkdir env (rev rp))
      (fun e w =>
         if is_FileNotFoundError e then
           match rp with
           | [] => (Raise e, w)
           | _ :: rparent =>
               (mkdir_parents env rparent true >>
                mkdir_no_parents env (rev rp) ok) w
           end
         else if is_OSError e && ok && is_dir w (rev rp) then (Ok tt, w)
         else (Raise e, w)).
Proof. destruct rp; reflexivity. Qed.

Lemma mkdir_parents_spec (rp : list pystr) :
  forall (ok : bool) (w w' : World) (r : result unit),
    mkdir_parents env rp ok w = (r, w') ->
    grows w w' /\ (r = Ok tt -> is_dir w' (rev rp) = true).
Proof.
  induction rp as [|c rparent IH]; intros ok w w' r;
    rewrite mkdir_parents_eq; unfold try_except;
    destruct (os_mkdir env _ w) as [[[]|e] w1] eqn:Hm;
    apply os_mkdir_spec in Hm; destruct Hm as [Hg Hd]; intros H.
  - simplify_eq. auto.
  - destruct (is_FileNotFoundError e); [simplify_eq; split; [auto|discriminate]|].
    destruct (is_OSError e && ok && is_dir w1 (rev [])) eqn:Hc; simplify_eq.
    + split; [assumption|]. intros _. apply andb_prop in Hc. apply Hc.
    + split; [assumption|discriminate].
  - simplify_eq. auto.
  - destruct (is_FileNotFoundError e).
    + unfold bind in H.
      destruct (mkdir_parents env rparent true w1) as [[[]|e1] w2] eqn:Hp;
        apply IH in Hp; destruct Hp as [Hg2 _].
      * apply mkdir_no_parents_spec in H. destruct H as [Hg3 Hd3].
        split; [eauto using grows_trans|exact Hd3].
      * simplify_eq. split; [eauto using grows_trans|discriminate].
    + destruct (is_OSError e && ok && is_dir w1 (rev (c :: rparent))) eqn:Hc;
        simplify_eq.
      * split; [assumption|]. intros _. apply andb_prop in Hc. apply Hc.
      * split; [assumption|discriminate].
Qed.

Lemma mkdir_spec (p : Path) (w w' : World) (r : result unit) :
  mkdir env p w = (r, w') ->
  grows w w' /\ (r = Ok tt -> is_dir w' p = true).
Proof.
  unfold mkdir. intros H. apply mkdir_parents_spec in H.
  rewrite rev_involutive in H. exact H.
Qed.

(** What [save_as] does: it returns after writing the whole object at
    [p], which was no directory and whose parent was one; or it raises,
    and the files are as they were but for what a write that was begun
    has left at [p]. *)
Lemma save_as_spec (d : Dataset) (p : Path) (w w' : World)
    (r : result unit) :
  save_as env d p w = (r, w') ->
  cwd w' = cwd w /\ dirs w' = dirs w
  /\ trace w' = trace w ++ [SaveAs p]
  /\ ((r = Ok tt /\ files w' = <[p := Complete d]> (files w)
       /\ is_dir w p = false /\ is_dir w (parent p) = true)
      \/ ((exists e, r = Raise e)
          /\ (files w' = files w
              \/ (files w' = <[p := Partial]> (files w)
                  /\ is_dir w p = false /\ is_dir w (parent p) = true)))).
Proof.
  unfold save_as, open_for_writing.
  rewrite !(is_dir_same_fs w (record_effect (SaveAs p) w))
    by apply record_effect_same_fs.
  intros H.
  destruct (save_result env _ p d) as [|e [|]].
  - destruct (is_dir w p) eqn:Hd;
      [injection H as <- <-; repeat split; right; eauto|].
    destruct (is_file _ (parent p));
      [injection H as <- <-; repeat split; right; eauto|].
    destruct (is_dir w (parent p)) eqn:Hp; simpl in H;
      injection H as <- <-; repeat split; [left|right]; eauto.
  - destruct (is_dir w p) eqn:Hd;
      [injection H as <- <-; repeat split; right; eauto|].
    destruct (is_file _ (parent p));
      [injection H as <- <-; repeat split; right; eauto|].
    destruct (is_dir w (parent p)) eqn:Hp; simpl in H;
      injection H as <- <-; repeat split; right; eauto 6.
  - injection H as <- <-. repeat split. right. eauto.
Qed.

(** What [unlink] does: it removes the file at [p], if there is one, or
    it raises and changes nothing. *)
Lemma unlink_spec (p : Path) (w w' : World) (r : result unit) :
  unlink env p w = (r, w') ->
  cwd w' = cwd w /\ dirs w' = dirs w
  /\ trace w' = trace w ++ [Unlink p]
  /\ ((r = Ok tt /\ files w' = delete p (files w))
      \/ ((exists e, r = Raise e) /\ files w' = files w)).
Proof.
  unfold unlink. intros H.
  destruct (unlink_refused env _ p);
    [injection H as <- <-; repeat split; right; eauto|].
  destruct (is_dir _ p); injection H as <- <-; repeat split;
    [right|left]; eauto.
Qed.

End Operations.

(** ** [create_safe_path] *)

Section CreateSafePath.

Context (env : Env).

(** One turn of the loop. *)
Lemma create_safe_path_loop_cons (path : Path) (folder : pystr)
    (rest : list pystr) (w : World) :
  create_safe_path_loop env path (folder :: rest) w
  = match mkdir env (joinpath path folder) w with
    | (Ok _, w1) => create_safe_path_loop env (joinpath path folder) rest w1
    | (Raise _, w1) => (Ok None, mkdir_error_logged w1)
    end.
Proof.
  simpl. unfold bind, try_except, ret, log.
  destruct (mkdir env (joinpath path folder) w) as [[[]|e] w1]; reflexivity.
Qed.

(** [create_safe_path] never raises, and touches nothing but
    directories, which it only adds. *)
Lemma create_safe_path_loop_grows (subfolders : list pystr) :
  forall (path : Path) (w w' : World) (r : result (option Path)),
    create_safe_path_loop env path subfolders w = (r, w') ->
    grows w w' /\ exists o, r = Ok o.
Proof.
  induction subfolders as [|folder rest IH]; intros path w w' r.
  - simpl. unfold ret. intros H. simplify_eq. eauto with fs.
  - rewrite create_safe_path_loop_cons.
    destruct (mkdir env (joinpath path folder) w) as [[[]|e] w1] eqn:Hm;
      apply mkdir_spec in Hm; destruct Hm as [Hg _]; intros H.
    + apply IH in H. destruct H as [Hg' Ho]. eauto using grows_trans.
    + simplify_eq. split; [|eauto].
      eapply grows_trans; [exact Hg|].
      unfold mkdir_error_logged, logged. auto with fs.
Qed.

(** The loop over a list in two parts. *)
Lemma create_safe_path_loop_app (pre post : list pystr) :
  forall (path : Path) (w : World),
    create_safe_path_loop env path (pre ++ post) w
    = match create_safe_path_loop env path pre w with
      | (Ok (Some q), w1) => create_safe_path_loop env q post w1
      | other => other
      end.
Proof.
  induction pre as [|folder rest IH]; intros path w.
  - reflexivity.
  - rewrite <- app_comm_cons, !create_safe_path_loop_cons.
    destruct (mkdir env (joinpath path folder) w) as [[[]|e] w1];
      [apply IH|reflexivity].
Qed.

(** The first level that cannot be created ends the loop: what comes
    after it in the list plays no part in the result. *)
Lemma create_safe_path_loop_abort (pre post : list pystr) (folder : pystr)
    (path q : Path) (w w1 w2 : World) (e : exn) :
  create_safe_path_loop env path pre w = (Ok (Some q), w1) ->
  mkdir env (joinpath q folder) w1 = (Raise e, w2) ->
  create_safe_path_loop env path (pre ++ folder :: post) w
  = (Ok None, mkdir_error_logged w2).
Proof.
  intros Hpre Hm.
  rewrite create_safe_path_loop_app, Hpre, create_safe_path_loop_cons, Hm.
  reflexivity.
Qed.

End CreateSafePath.

(** The directory that [create_safe_path] returns is the base joined with
    the levels, one after the other. *)
Lemma create_safe_path_loop_path (env : Env) (subfolders : list pystr) :
  forall (path sp : Path) (w w1 : World),
    create_safe_path_loop env path subfolders w = (Ok (Some sp), w1) ->
    sp = fold_left joinpath subfolders path.
Proof.
  induction subfolders as [|folder rest IH]; intros path sp w w1.
  - simpl. unfold ret. intros H. injection H as <- _. reflexivity.
  - rewrite create_safe_path_loop_cons.
    destruct (mkdir env (joinpath path folder) w) as [[[]|e] wa];
      [|discriminate].
    intros H. simpl. eapply IH. exact H.
Qed.

(** ** The store transaction handler *)

Section Handler.

Context (env : Env).

Lemma read_metadata_inv (event : Event) (w w0 : World) (l : Locals) :
  read_metadata env event w = (Ok l, w0) ->
  metadata_read env event w l
  /\ w0 = uid_generated env (uid_generated env (uid_generated env w)).
Proof.
  unfold read_metadata, metadata_read, bind, lift, ret, uid_generated,
    generate_uid.
  destruct (dataset event) as [d|e]; [|discriminate].
  destruct (file_meta event) as [meta|e]; [|discriminate].
  cbn [fst snd uid_calls set_uid_calls record_effect].
  destruct (shorten_uid (ds_get _ "StudyInstanceUID" _)) as [v1|e] eqn:H1;
    [|discriminate].
  destruct (shorten_uid (ds_get _ "SeriesInstanceUID" _)) as [v2|e] eqn:H2;
    [|discriminate].
  destruct (shorten_uid (ds_get _ "SOPInstanceUID" _)) as [v3|e] eqn:H3;
    [|discriminate].
  intros H. injection H as <- <-.
  split; [|reflexivity].
  exists d, meta. cbn [ds patient_folder study_uid series_uid
    sop_instance_uid modality instance_number study_date].
  repeat split; assumption.
Qed.

Lemma uid_generated_same_fs (w : World) :
  cwd (uid_generated env w) = cwd w
  /\ dirs (uid_generated env w) = dirs w
  /\ files (uid_generated env w) = files w
  /\ uid_calls (uid_generated env w) = S (uid_calls w).
Proof. repeat split. Qed.

Lemma read_metadata_fs (event : Event) (w w0 : World) (r : result Locals) :
  read_metadata env event w = (r, w0) ->
  cwd w0 = cwd w /\ dirs w0 = dirs w /\ files w0 = files w.
Proof.
  unfold read_metadata, bind, lift, ret, generate_uid.
  destruct (dataset event) as [d|e];
    [|intros H; injection H as <- <-; auto].
  destruct (file_meta event) as [meta|e];
    [|intros H; injection H as <- <-; auto].
  destruct (shorten_uid (ds_get _ "StudyInstanceUID" _)) as [v1|e];
    [|intros H; injection H as <- <-; auto].
  destruct (shorten_uid (ds_get _ "SeriesInstanceUID" _)) as [v2|e];
    [|intros H; injection H as <- <-; auto].
  destruct (shorten_uid (ds_get _ "SOPInstanceUID" _)) as [v3|e];
    intros H; injection H as <- <-; auto.
Qed.

(** The body of [handle_store], step by step. *)
Lemma handle_store_body_eq (event : Event) (w : World) :
  handle_store_body env event w
  = match read_metadata env event w with
    | (Raise e, w0) => (Raise e, w0)
    | (Ok l, w0) =>
        match create_safe_path env (base_path w0) (folders l) w0 with
        | (Raise e, w1) => (Raise e, w1)
        | (Ok None, w1) =>
            (Ok 0xC001,
             logged ERROR "No se pudo crear la estructura de directorios" w1)
        | (Ok (Some safe_path), w1) =>
            let filepath := joinpath safe_path (filename l) in
            let w2 := record_effect (ExistsCheck filepath) w1 in
            if path_exists w2 filepath
            then (Ok 0x0000, logged WARNING "Archivo ya existe" w2)
            else
              match save_as env (ds l) filepath w2 with
              | (Ok _, w3) =>
                  (Ok 0x0000, logged INFO "Archivo DICOM guardado" w3)
              | (Raise _, w3) =>
                  (Ok 0xC002,
                   snd (unlink env filepath
                          (logged ERROR "Error al guardar" w3)))
              end
        end
    end.
Proof.
  unfold handle_store_body, bind at 1.
  destruct (read_metadata env event w) as [[l|e] w0]; [|reflexivity].
  unfold bind at 1, absolute at 1. unfold bind at 1.
  fold (base_path w0). fold (folders l).
  destruct (create_safe_path env (base_path w0) (folders l) w0)
    as [[[sp|]|e] w1]; [|reflexivity|reflexivity].
  unfold bind at 1, exists_ at 1. cbv zeta.
  destruct (path_exists _ _); [reflexivity|].
  unfold try_except at 1, bind at 1.
  destruct (save_as env (ds l) _ _) as [[[]|e] w3]; [reflexivity|].
  unfold bind, log, try_except, ret, logged.
  destruct (unlink env _ _) as [[[]|e'] w4]; reflexivity.
Qed.

Lemma handle_store_eq (event : Event) (w : World) :
  handle_store env event w
  = match handle_store_body env event w with
    | (Ok code, w') => (Ok code, w')
    | (Raise _, w') => (Ok 0xC003, logged ERROR "Error en handle_store" w')
    end.
Proof.
  unfold handle_store, try_except.
  destruct (handle_store_body env event w) as [[code|e] w']; reflexivity.
Qed.

End Handler.

(** C1. Whatever the event, the environment and the state of the world,
    [handle_store] raises nothing: it returns, and what it returns is one
    of the four codes 0x0000, 0xC001, 0xC002 and 0xC003. *)
Theorem handle_store_always_returns_a_code (env : Env) (event : Event)
    (w : World) :
  exists (code : Z) (w' : World),
    handle_store env event w = (Ok code, w')
    /\ (code = 0x0000 \/ code = 0xC001 \/ code = 0xC002 \/ code = 0xC003).
Proof.
  rewrite handle_store_eq, handle_store_body_eq.
  destruct (read_metadata env event w) as [[l|e] w0]; [|eauto 10].
  destruct (create_safe_path env (base_path w0) (folders l) w0)
    as [[[sp|]|e] w1]; [|eauto 10|eauto 10].
  cbv zeta.
  destruct (path_exists _ _); [eauto 10|].
  destruct (save_as env (ds l) _ _) as [[[]|e] w3]; eauto 10.
Qed.

(** Each of the four codes is returned: on a disk that takes everything,
    when the patient directory is refused, when the write fails (and the
    deletion as well), when an identifier is [None] and when the dataset
    cannot be decoded. *)
Example handle_store_four_codes :
  fst (handle_store quiet_env scenario_B empty_disk) = Ok 0x0000
  /\ fst (handle_store (refusing_env (lit "John_Doe_P1")) scenario_B
            empty_disk) = Ok 0xC001
  /\ fst (handle_store (failing_write_env true) scenario_B empty_disk)
     = Ok 0xC002
  /\ fst (handle_store quiet_env scenario_none_uid empty_disk) = Ok 0xC003
  /\ fst (handle_store quiet_env scenario_undecodable empty_disk)
     = Ok 0xC003.
Proof. repeat split; vm_compute; reflexivity. Qed.

(** The probe responder logs and answers Success. *)
Lemma handle_echo_success (w : World) :
  handle_echo w = (Ok 0x0000, logged INFO "Solicitud C-ECHO recibida" w).
Proof. reflexivity. Qed.

(** ** Resolution of the storage location *)

Lemma ds_get_present (d : Dataset) (key : string) (v dflt : value) :
  ds_elements d !! key = Some v -> ds_get d key dflt = v.
Proof. unfold ds_get. intros ->. reflexivity. Qed.

Lemma ds_get_absent (d : Dataset) (key : string) (dflt : value) :
  ds_elements d !! key = None -> ds_get d key dflt = dflt.
Proof. unfold ds_get. intros ->. reflexivity. Qed.

Lemma ds_get_set_file_meta (d : Dataset) (meta : FileMeta) (key : string)
    (dflt : value) :
  ds_get (set_file_meta d meta) key dflt = ds_get d key dflt.
Proof. reflexivity. Qed.

(** With its three identifiers in the dataset, the metadata that are read
    depend on the event alone. *)
Lemma read_metadata_with_uids (env env' : Env) (event : Event)
    (w w' : World) :
  event_has_uids event ->
  fst (read_metadata env event w) = fst (read_metadata env' event w').
Proof.
  intros Hu. unfold read_metadata, bind, lift, ret, generate_uid.
  destruct (dataset event) as [d|e] eqn:Hd; [|reflexivity].
  destruct (file_meta event) as [meta|e]; [|reflexivity].
  destruct (Hu d Hd) as ([v1 H1] & [v2 H2] & [v3 H3]).
  rewrite !ds_get_set_file_meta.
  rewrite !(ds_get_present _ _ _ _ H1), !(ds_get_present _ _ _ _ H2),
    !(ds_get_present _ _ _ _ H3).
  destruct (shorten_uid v1); [|reflexivity].
  destruct (shorten_uid v2); [|reflexivity].
  destruct (shorten_uid v3); reflexivity.
Qed.

(** Each [ds.get] of an identifier gives the same value in two calls when
    the identifier is settled. *)
Lemma ds_get_settled (d : Dataset) (key : string) (g g' : pystr) :
  uid_settled d key g g' -> ds_get d key (VStr g) = ds_get d key (VStr g').
Proof.
  unfold uid_settled, ds_get. intros [[v ->]| ->]; reflexivity.
Qed.

Lemma event_has_uids_settled (env1 env2 : Env) (event : Event)
    (w1 w2 : World) :
  event_has_uids event -> uids_settled env1 env2 event w1 w2.
Proof.
  intros Hu d Hd. destruct (Hu d Hd) as (H1 & H2 & H3).
  unfold uid_settled. auto.
Qed.

Lemma read_metadata_settled (env1 env2 : Env) (event : Event)
    (w1 w2 : World) :
  uids_settled env1 env2 event w1 w2 ->
  fst (read_metadata env1 event w1) = fst (read_metadata env2 event w2).
Proof.
  intros Hu. unfold read_metadata, bind, lift, ret, generate_uid.
  destruct (dataset event) as [d|e] eqn:Hd; [|reflexivity].
  destruct (file_meta event) as [meta|e]; [|reflexivity].
  destruct (Hu d Hd) as (H1 & H2 & H3).
  cbn [uid_calls set_uid_calls record_effect].
  rewrite !ds_get_set_file_meta.
  rewrite (ds_get_settled _ _ _ _ H1), (ds_get_settled _ _ _ _ H2),
    (ds_get_settled _ _ _ _ H3).
  destruct (shorten_uid (ds_get d "StudyInstanceUID" _)); [|reflexivity].
  destruct (shorten_uid (ds_get d "SeriesInstanceUID" _)); [|reflexivity].
  destruct (shorten_uid (ds_get d "SOPInstanceUID" _)); reflexivity.
Qed.

(** C3, as the code has it. Two resolutions of the storage location of
    an instance, in any two states of the world and with any identifier
    generators, give the same patient folder, study folder, series folder
    and filename (or end with the same exception) when the dataset has its
    StudyInstanceUID, SeriesInstanceUID and SOPInstanceUID, and more
    generally when each of the three is in the dataset or is replaced in
    both resolutions by the same generated identifier. *)
Theorem resolved_location_deterministic (env1 env2 : Env) (event : Event)
    (w1 w2 : World) :
  event_has_uids event \/ uids_settled env1 env2 event w1 w2 ->
  resolved_location env1 event w1 = resolved_location env2 event w2.
Proof.
  intros Hu. unfold resolved_location.
  rewrite (read_metadata_settled env1 env2 event w1 w2);
    [reflexivity|].
  destruct Hu as [Hu|Hu]; [apply event_has_uids_settled|]; exact Hu.
Qed.

Lemma resolved_location_deterministic_witness :
  event_has_uids scenario_B
  /\ resolved_location quiet_env scenario_B empty_disk
     = resolved_location quiet_env scenario_B
         (snd (read_metadata quiet_env scenario_B empty_disk)).
Proof.
  assert (H : event_has_uids scenario_B).
  { intros d Hd. injection Hd as <-.
    repeat split; vm_compute; eexists; reflexivity. }
  split; [exact H|].
  apply (resolved_location_deterministic quiet_env quiet_env scenario_B
           empty_disk _ (or_introl H)).
Defined.

(** C3 as stated fails: scenario A has no SOPInstanceUID (nor
    SeriesInstanceUID), so each resolution inserts the identifiers just
    generated, and resolving twice in a row gives two locations. *)
Lemma resolved_location_not_deterministic :
  resolved_location quiet_env scenario_A empty_disk
  <> resolved_location quiet_env scenario_A
       (snd (read_metadata quiet_env scenario_A empty_disk)).
Proof. vm_compute. discriminate. Qed.

(** ** Duplicates *)

Lemma path_exists_eq (w w' : World) (p : Path) :
  dirs w' = dirs w -> files w' = files w ->
  path_exists w' p = path_exists w p.
Proof.
  unfold path_exists, is_dir, is_file. intros -> ->. reflexivity.
Qed.

Lemma event_has_uids_of_locals (env : Env) (event : Event) (w w0 : World)
    (l : Locals) :
  read_metadata env event w = (Ok l, w0) ->
  has_uids (ds l) -> event_has_uids event.
Proof.
  intros Hread Hu d Hd.
  apply read_metadata_inv in Hread.
  destruct Hread as [(d' & meta & Hd' & _ & Hds & _) _].
  rewrite Hd in Hd'. injection Hd' as <-.
  rewrite Hds in Hu. exact Hu.
Qed.

(** What a first call that returned Success has left behind. *)
Lemma handle_store_success_inv (env : Env) (event : Event)
    (w w0 w1 wA : World) (l : Locals) (sp : Path) :
  read_metadata env event w = (Ok l, w0) ->
  create_safe_path env (base_path w0) (folders l) w0 = (Ok (Some sp), w1) ->
  handle_store env event w = (Ok 0x0000, wA) ->
  let filepath := joinpath sp (filename l) in
  cwd wA = cwd w1 /\ dirs wA = dirs w1
  /\ path_exists wA filepath = true
  /\ (files wA = files w1
      \/ files wA = <[filepath := Complete (ds l)]> (files w1)).
Proof.
  intros Hread Hcsp HA filepath.
  rewrite handle_store_eq, handle_store_body_eq, Hread, Hcsp in HA.
  cbv zeta in HA. fold filepath in HA.
  destruct (path_exists (record_effect (ExistsCheck filepath) w1) filepath)
    eqn:Hex.
  - injection HA as <-. repeat split; auto.
  - destruct (save_as env (ds l) filepath _) as [[[]|e] w3] eqn:Hsave;
      [|discriminate HA].
    apply save_as_spec in Hsave.
    destruct Hsave as (Hc & Hd & _ & [(_ & Hf & _)|([e He] & _)]);
      [|discriminate He].
    injection HA as <-. repeat split; auto.
    unfold path_exists, is_file, logged. simpl. rewrite Hf. simpl.
    rewrite lookup_insert_eq.
    rewrite (bool_decide_eq_true_2 (is_Some (Some _))) by eauto.
    apply orb_true_r.
Qed.

(** A run is known by its result: the world is the one it leaves. *)
Lemma run_result {A : Type} (m : M A) (w : World) (r : result A) :
  fst (m w) = r -> m w = (r, snd (m w)).
Proof. intros <-. destruct (m w); reflexivity. Qed.

(** What is on the disk stays there while directories are added. *)
Lemma path_exists_grows (w w' : World) (p : Path) :
  grows w w' -> path_exists w p = true -> path_exists w' p = true.
Proof.
  intros Hg. unfold path_exists. rewrite (is_file_grows _ _ _ Hg).
  destruct (is_dir w p) eqn:Hd; [|simpl; intros ->; apply orb_true_r].
  intros _. rewrite (is_dir_grows _ _ _ Hg Hd). reflexivity.
Qed.

(** The call that finds something at the target path: once the directory
    levels are ensured, the existence check, if it answers, answers that
    the file is there, and the handler returns Success without having
    touched a file. *)
Lemma handle_store_found (env : Env) (event : Event) (w w0 w1 w2 : World)
    (l : Locals) (sp : Path) (found : bool) :
  read_metadata env event w = (Ok l, w0) ->
  create_safe_path env (base_path w0) (folders l) w0 = (Ok (Some sp), w1) ->
  path_exists w (target_path w0 l) = true ->
  exists_ (target_path w0 l) w1 = (Ok found, w2) ->
  found = true
  /\ handle_store env event w
     = (Ok 0x0000, logged WARNING "Archivo ya existe" w2)
  /\ files w2 = files w.
Proof.
  intros Hread Hcsp Hex Hcheck.
  pose proof (read_metadata_fs _ _ _ _ _ Hread) as (Hc0 & Hd0 & Hf0).
  pose proof (create_safe_path_loop_grows _ _ _ _ _ _ Hcsp) as [Hg _].
  assert (Hex1 : path_exists (record_effect (ExistsCheck (target_path w0 l)) w1)
                   (target_path w0 l) = true).
  { rewrite (path_exists_eq w1) by reflexivity.
    apply (path_exists_grows w0); [exact Hg|].
    rewrite (path_exists_eq w) by assumption. exact Hex. }
  unfold exists_ in Hcheck. rewrite Hex1 in Hcheck.
  injection Hcheck as <- <-.
  split; [reflexivity|]. split.
  - rewrite handle_store_eq, handle_store_body_eq, Hread, Hcsp. cbv zeta.
    pose proof (create_safe_path_loop_path _ _ _ _ _ _ Hcsp) as ->.
    change (joinpath _ (filename l)) with (target_path w0 l).
    rewrite Hex1. reflexivity.
  - destruct Hg as (_ & Hf1 & _). simpl. congruence.
Qed.

(** A second call on an instance that has its three identifiers reads the
    metadata that the first call has read. *)
Lemma read_metadata_again (env env' : Env) (event : Event)
    (w w0 w' w0' : World) (l : Locals) (r : result Locals) :
  read_metadata env event w = (Ok l, w0) ->
  has_uids (ds l) ->
  read_metadata env' event w' = (r, w0') ->
  r = Ok l.
Proof.
  intros Hread Hu Hagain.
  pose proof (event_has_uids_of_locals _ _ _ _ _ Hread Hu) as Hev.
  pose proof (read_metadata_with_uids env' env event w' w Hev) as Hsame.
  rewrite Hagain, Hread in Hsame. exact Hsame.
Qed.




(** ** Failures *)

(** C6. Let the metadata be read, let the levels [pre] of the three
    (patient, study, series) be created, and let the creation of the next
    level [folder] fail. Then [create_safe_path] returns [None] in the
    world the failed [mkdir] has left, with one error logged and nothing
    else done: the levels after [folder] play no part, whatever they are;
    the directories created so far are all still there; and
    [handle_store] returns 0xC001 after one more error line, with the
    files of the disk untouched. *)
Theorem directory_failure_aborts (env : Env) (event : Event)
    (w w0 w1 w2 : World) (l : Locals) (pre post : list pystr)
    (folder : pystr) (q : Path) (e : exn) :
  read_metadata env event w = (Ok l, w0) ->
  folders l = pre ++ folder :: post ->
  create_safe_path env (base_path w0) pre w0 = (Ok (Some q), w1) ->
  mkdir env (joinpath q folder) w1 = (Raise e, w2) ->
  let failed := mkdir_error_logged w2 in
  (forall others,
     create_safe_path env (base_path w0) (pre ++ folder :: others) w0
     = (Ok None, failed))
  /\ handle_store env event w
     = (Ok 0xC001,
        logged ERROR "No se pudo crear la estructura de directorios" failed)
  /\ trace failed
     = trace w2 ++ [Log ERROR "No se pudo crear directorio"]
  /\ files failed = files w
  /\ dirs w ⊆ dirs w1 /\ dirs w1 ⊆ dirs failed.
Proof.
  intros Hread Hfolders Hpre Hmk failed.
  assert (Habort : forall others,
             create_safe_path env (base_path w0) (pre ++ folder :: others) w0
             = (Ok None, failed)).
  { intros others. unfold create_safe_path.
    eapply create_safe_path_loop_abort; eassumption. }
  pose proof (read_metadata_fs _ _ _ _ _ Hread) as (_ & Hd0 & Hf0).
  pose proof (create_safe_path_loop_grows _ _ _ _ _ _ Hpre)
    as [(_ & Hf1 & _ & Hd1) _].
  pose proof (mkdir_spec _ _ _ _ _ Hmk) as [(_ & Hf2 & _ & Hd2) _].
  split; [exact Habort|]. split; [|split; [|split; [|split]]].
  - rewrite handle_store_eq, handle_store_body_eq, Hread, Hfolders, Habort.
    reflexivity.
  - reflexivity.
  - unfold failed. simpl. congruence.
  - rewrite <- Hd0. exact Hd1.
  - exact Hd2.
Qed.

Lemma directory_failure_aborts_witness :
  let env := refusing_env (lit "20240101_E999999999999") in
  let w := empty_disk in
  let patient := [lit "srv"; lit "estudios_recibidos"; lit "John_Doe_P1"] in
  exists w',
    handle_store env scenario_B w = (Ok 0xC001, w')
    /\ files w' = ∅
    /\ patient ∈ dirs w'
    /\ Mkdir scenario_B_dir ∉ trace w'.
Proof.
  intros env w patient.
  pose (w0 := snd (read_metadata env scenario_B w)).
  pose (w1 := snd (create_safe_path env (base_path w0)
                     [patient_folder scenario_B_locals] w0)).
  pose (w2 := snd (mkdir env (joinpath patient (study_folder scenario_B_locals))
                     w1)).
  destruct (directory_failure_aborts env scenario_B w w0 w1 w2
              scenario_B_locals [patient_folder scenario_B_locals]
              [series_folder scenario_B_locals]
              (study_folder scenario_B_locals) patient OSError)
    as (_ & Hstore & _ & Hfiles & _ & Hdirs).
  - refine (run_result (read_metadata env scenario_B) w _ _);
    vm_compute; reflexivity.
  - reflexivity.
  - refine (run_result
              (create_safe_path env (base_path w0)
                 [patient_folder scenario_B_locals]) w0 _ _);
    vm_compute; reflexivity.
  - refine (run_result
              (mkdir env (joinpath patient (study_folder scenario_B_locals)))
              w1 _ _);
    vm_compute; reflexivity.
  - eexists. split; [exact Hstore|]. split; [exact Hfiles|]. split.
    + apply Hdirs. vm_compute. reflexivity.
    + vm_compute. intros H. 
      repeat (apply elem_of_cons in H; destruct H as [H|H]; [discriminate H|]).
      apply elem_of_nil in H. exact H.
Defined.

(** C7. Let the metadata be read and the directories ensured, let nothing
    exist at the target path, and let [save_as] raise. Then the handler
    logs the error, calls [unlink] on the target path once, and returns
    0xC002 (which is not Success) whether [unlink] succeeds or raises; if
    [unlink] succeeds, no file is left at the target path. *)
Theorem write_failure_is_cleaned_up (env : Env) (event : Event)
    (w w0 w1 w3 : World) (l : Locals) (sp : Path) (e : exn) :
  read_metadata env event w = (Ok l, w0) ->
  create_safe_path env (base_path w0) (folders l) w0 = (Ok (Some sp), w1) ->
  let filepath := joinpath sp (filename l) in
  let w2 := record_effect (ExistsCheck filepath) w1 in
  path_exists w2 filepath = false ->
  save_as env (ds l) filepath w2 = (Raise e, w3) ->
  exists (r : result unit) (w5 : World),
    unlink env filepath (logged ERROR "Error al guardar" w3) = (r, w5)
    /\ handle_store env event w = (Ok 0xC002, w5)
    /\ 0xC002 <> 0x0000
    /\ trace w5
       = trace w3 ++ [Log ERROR "Error al guardar"; Unlink filepath]
    /\ (r = Ok tt -> files w5 !! filepath = None)
    /\ (forall e', r = Raise e' -> files w5 = files w3).
Proof.
  intros Hread Hcsp filepath w2 Hex Hsave.
  destruct (unlink env filepath (logged ERROR "Error al guardar" w3))
    as [r w5] eqn:Hun.
  exists r, w5. split; [reflexivity|]. split; [|split; [discriminate|]].
  - rewrite handle_store_eq, handle_store_body_eq, Hread, Hcsp.
    cbv zeta. fold filepath. fold w2. rewrite Hex, Hsave, Hun. reflexivity.
  - unfold unlink in Hun.
    destruct (unlink_refused env _ filepath).
    { injection Hun as <- <-. split; [|split; [discriminate|reflexivity]].
      simpl. rewrite <- app_assoc. reflexivity. }
    destruct (is_dir _ filepath).
    { injection Hun as <- <-. split; [|split; [discriminate|reflexivity]].
      simpl. rewrite <- app_assoc. reflexivity. }
    injection Hun as <- <-. split; [|split; [|discriminate]].
    + simpl. rewrite <- app_assoc. reflexivity.
    + intros _. simpl. apply lookup_delete_eq.
Qed.

Lemma write_failure_is_cleaned_up_witness :
  let env := failing_write_env false in
  exists w',
    handle_store env scenario_B empty_disk = (Ok 0xC002, w')
    /\ files w' !! joinpath scenario_B_dir (filename scenario_B_locals)
       = None.
Proof.
  intros env.
  pose (w0 := snd (read_metadata env scenario_B empty_disk)).
  pose (w1 := snd (create_safe_path env (base_path w0)
                     (folders scenario_B_locals) w0)).
  pose (filepath := joinpath scenario_B_dir (filename scenario_B_locals)).
  pose (w2 := record_effect (ExistsCheck filepath) w1).
  pose (w3 := snd (save_as env (ds scenario_B_locals) filepath w2)).
  destruct (write_failure_is_cleaned_up env scenario_B empty_disk w0 w1 w3
              scenario_B_locals scenario_B_dir OSError)
    as (r & w5 & Hun & Hstore & _ & _ & Hgone & _).
  - refine (run_result (read_metadata env scenario_B) empty_disk _ _);
    vm_compute; reflexivity.
  - refine (run_result
              (create_safe_path env (base_path w0)
                 (folders scenario_B_locals)) w0 _ _);
    vm_compute; reflexivity.
  - vm_compute; reflexivity.
  - refine (run_result (save_as env (ds scenario_B_locals) filepath) w2 _ _);
    vm_compute; reflexivity.
  - exists w5. split; [exact Hstore|]. apply Hgone.
    change r with (fst (r, w5)). rewrite <- Hun. vm_compute. reflexivity.
Defined.

(** ** Identifiers that are absent, and identifiers that are empty *)

(** [shorten_uid] on text: the last twelve characters of a longer
    identifier, a shorter one unchanged. *)
Lemma shorten_uid_text (s : pystr) :
  shorten_uid (VStr s)
  = Ok (VStr (if (12 <? length s)%nat then slice_last 12 s else s)).
Proof. unfold shorten_uid, py_len. destruct (12 <? length s)%nat; reflexivity. Qed.

Lemma slice_last_length (n : nat) (s : pystr) :
  (n <= length s)%nat -> length (slice_last n s) = n.
Proof. intros H. unfold slice_last. rewrite length_skipn. lia. Qed.

(** A longer identifier is cut to its last twelve characters; one of
    twelve characters or fewer is returned unchanged. *)
Lemma shorten_uid_suffix (s : pystr) :
  ((12 < length s)%nat ->
   exists pre,
     s = pre ++ slice_last 12 s
     /\ length (slice_last 12 s) = 12%nat
     /\ shorten_uid (VStr s) = Ok (VStr (slice_last 12 s)))
  /\ ((length s <= 12)%nat -> shorten_uid (VStr s) = Ok (VStr s)).
Proof.
  rewrite shorten_uid_text. split; intros H.
  - exists (firstn (length s - 12) s). split; [|split].
    + unfold slice_last. symmetry. apply firstn_skipn.
    + apply slice_last_length. lia.
    + apply Nat.ltb_lt in H. rewrite H. reflexivity.
  - apply Nat.ltb_ge in H. rewrite H. reflexivity.
Qed.

Lemma shorten_uid_text_nonempty (s : pystr) (v : value) :
  s <> [] -> shorten_uid (VStr s) = Ok v -> py_str v <> [].
Proof.
  intros Hs. rewrite shorten_uid_text. intros H. injection H as <-.
  destruct (12 <? length s)%nat eqn:Hlen; simpl; [|exact Hs].
  apply Nat.ltb_lt in Hlen. intros Hnil.
  apply (f_equal (@length N)) in Hnil.
  rewrite slice_last_length in Hnil by lia. discriminate Hnil.
Qed.

Lemma shorten_uid_usable (d : Dataset) (key : string) (g : pystr) :
  uid_usable d key -> exists v, shorten_uid (ds_get d key (VStr g)) = Ok v.
Proof.
  unfold uid_usable, ds_get.
  destruct (ds_elements d !! key) as [[|s|z]|]; simpl; try contradiction;
    intros _; rewrite shorten_uid_text; eauto.
Qed.

(** An instance that decodes and whose three identifiers are text or
    absent has its metadata read without an exception. *)
Lemma read_metadata_total (env : Env) (event : Event) (w : World)
    (d : Dataset) (meta : FileMeta) :
  dataset event = Ok d -> file_meta event = Ok meta ->
  uid_usable d "StudyInstanceUID" ->
  uid_usable d "SeriesInstanceUID" ->
  uid_usable d "SOPInstanceUID" ->
  exists l w0, read_metadata env event w = (Ok l, w0).
Proof.
  intros Hd Hm H1 H2 H3.
  unfold read_metadata, bind, lift, ret, generate_uid. rewrite Hd, Hm.
  rewrite !ds_get_set_file_meta.
  destruct (shorten_uid_usable d _ (uid_source env (uid_calls w)) H1)
    as [v1 ->].
  cbn [uid_calls set_uid_calls record_effect].
  destruct (shorten_uid_usable d _ (uid_source env (S (uid_calls w))) H2)
    as [v2 ->].
  destruct (shorten_uid_usable d _
              (uid_source env (S (S (uid_calls w)))) H3) as [v3 ->].
  eauto.
Qed.

Lemma read_metadata_trace (env : Env) (event : Event) (w w0 : World)
    (l : Locals) :
  read_metadata env event w = (Ok l, w0) ->
  trace w0
  = trace w ++ [GenerateUid (uid_source env (uid_calls w));
                GenerateUid (uid_source env (S (uid_calls w)));
                GenerateUid (uid_source env (S (S (uid_calls w))))].
Proof.
  intros H. apply read_metadata_inv in H. destruct H as [_ ->].
  unfold uid_generated, generate_uid. simpl. rewrite <- !app_assoc.
  reflexivity.
Qed.

(** C8. Let the instance decode and the generator never return an empty
    identifier. If its three identifiers are absent or text, the metadata
    are read without an exception. And whenever they are read: the three
    identifiers generated during this call are the three calls to
    [generate_uid] of the trace, and for each of StudyInstanceUID,
    SeriesInstanceUID and SOPInstanceUID that the dataset does not have,
    what is shortened is the identifier generated for it, so that the
    short identifier, and with it the study folder, the series folder or
    the filename, is not empty. *)
Theorem missing_uid_is_generated (env : Env) (event : Event) (w : World)
    (d : Dataset) (meta : FileMeta) :
  dataset event = Ok d -> file_meta event = Ok meta ->
  (forall k, uid_source env k <> []) ->
  let g1 := uid_source env (uid_calls w) in
  let g2 := uid_source env (S (uid_calls w)) in
  let g3 := uid_source env (S (S (uid_calls w))) in
  (uid_usable d "StudyInstanceUID" -> uid_usable d "SeriesInstanceUID" ->
   uid_usable d "SOPInstanceUID" ->
   exists l w0, read_metadata env event w = (Ok l, w0))
  /\ forall l w0,
       read_metadata env event w = (Ok l, w0) ->
       trace w0 = trace w ++ [GenerateUid g1; GenerateUid g2; GenerateUid g3]
       /\ (uid_absent d "StudyInstanceUID" ->
           shorten_uid (VStr g1) = Ok (study_uid l)
           /\ py_str (study_uid l) <> [] /\ study_folder l <> [])
       /\ (uid_absent d "SeriesInstanceUID" ->
           shorten_uid (VStr g2) = Ok (series_uid l)
           /\ py_str (series_uid l) <> [] /\ series_folder l <> [])
       /\ (uid_absent d "SOPInstanceUID" ->
           shorten_uid (VStr g3) = Ok (sop_instance_uid l)
           /\ py_str (sop_instance_uid l) <> [] /\ filename l <> []).
Proof.
  intros Hd Hm Hgen g1 g2 g3. split.
  - intros H1 H2 H3. eapply read_metadata_total; eassumption.
  - intros l w0 Hread. split; [exact (read_metadata_trace _ _ _ _ _ Hread)|].
    apply read_metadata_inv in Hread.
    destruct Hread as [(d' & meta' & Hd' & _ & Hds & _ & H1 & H2 & H3 & _) _].
    rewrite Hd in Hd'. injection Hd' as <-.
    rewrite Hds, ds_get_set_file_meta in H1, H2, H3.
    split; [|split]; intros Habs;
      rewrite (ds_get_absent _ _ _ Habs) in *.
    + split; [exact H1|]. split.
      * eapply shorten_uid_text_nonempty; [apply Hgen|exact H1].
      * unfold study_folder. destruct (py_str (study_date l)); discriminate.
    + split; [exact H2|]. split.
      * eapply shorten_uid_text_nonempty; [apply Hgen|exact H2].
      * unfold series_folder. destruct (py_str (modality l)); discriminate.
    + split; [exact H3|]. split.
      * eapply shorten_uid_text_nonempty; [apply Hgen|exact H3].
      * unfold filename. destruct (py_str (modality l)); discriminate.
Qed.

Lemma quiet_env_uid_nonempty (k : nat) : uid_source quiet_env k <> [].
Proof. discriminate. Qed.

Lemma missing_uid_is_generated_witness :
  exists l w0,
    read_metadata quiet_env scenario_A empty_disk = (Ok l, w0)
    /\ series_uid l = VStr (lit "2.25.1")
    /\ sop_instance_uid l = VStr (lit "2.25.2")
    /\ py_str (series_uid l) <> [] /\ py_str (sop_instance_uid l) <> [].
Proof.
  destruct (missing_uid_is_generated quiet_env scenario_A empty_disk _ _
              eq_refl eq_refl quiet_env_uid_nonempty) as [Htotal Hprops].
  destruct Htotal as (l & w0 & Hread); [vm_compute; exact I ..|].
  destruct (Hprops l w0 Hread) as (_ & _ & Hseries & Hsop).
  destruct Hseries as (H2 & Hn2 & _); [vm_compute; reflexivity|].
  destruct Hsop as (H3 & Hn3 & _); [vm_compute; reflexivity|].
  exists l, w0. split; [exact Hread|].
  assert (E2 : Ok (series_uid l) = Ok (VStr (lit "2.25.1")))
    by (rewrite <- H2; vm_compute; reflexivity).
  assert (E3 : Ok (sop_instance_uid l) = Ok (VStr (lit "2.25.2")))
    by (rewrite <- H3; vm_compute; reflexivity).
  injection E2 as E2. injection E3 as E3.
  repeat split; assumption.
Defined.

(** C9. Let the instance decode. If its three identifiers are absent or
    text, the metadata are read without an exception; and whenever they
    are read, an identifier that is in the dataset with the empty text as
    its value is used as it is, no identifier being generated in its
    place: the short identifier is empty, the study folder is the study
    date followed by [_E] and nothing, the series folder is the modality
    followed by [_S] and nothing, and the filename has nothing between
    its last underscore and [.dcm]. *)
Theorem empty_uid_is_used_as_is (env : Env) (event : Event) (w : World)
    (d : Dataset) (meta : FileMeta) :
  dataset event = Ok d -> file_meta event = Ok meta ->
  (uid_usable d "StudyInstanceUID" -> uid_usable d "SeriesInstanceUID" ->
   uid_usable d "SOPInstanceUID" ->
   exists l w0, read_metadata env event w = (Ok l, w0))
  /\ forall l w0,
       read_metadata env event w = (Ok l, w0) ->
       (ds_elements d !! "StudyInstanceUID" = Some (VStr []) ->
        study_uid l = VStr []
        /\ study_folder l = py_str (study_date l) ++ lit "_E")
       /\ (ds_elements d !! "SeriesInstanceUID" = Some (VStr []) ->
           series_uid l = VStr []
           /\ series_folder l = py_str (modality l) ++ lit "_S")
       /\ (ds_elements d !! "SOPInstanceUID" = Some (VStr []) ->
           sop_instance_uid l = VStr []
           /\ filename l
              = py_str (modality l) ++ lit "_" ++ instance_number l
                ++ lit "_" ++ lit ".dcm").
Proof.
  intros Hd Hm. split.
  - intros H1 H2 H3. eapply read_metadata_total; eassumption.
  - intros l w0 Hread. apply read_metadata_inv in Hread.
    destruct Hread as [(d' & meta' & Hd' & _ & Hds & _ & H1 & H2 & H3 & _) _].
    rewrite Hd in Hd'. injection Hd' as <-.
    rewrite Hds, ds_get_set_file_meta in H1, H2, H3.
    split; [|split]; intros Hempty;
      rewrite (ds_get_present _ _ _ _ Hempty) in *.
    + injection H1 as H1. split; [congruence|].
      unfold study_folder. rewrite <- H1. reflexivity.
    + injection H2 as H2. split; [congruence|].
      unfold series_folder. rewrite <- H2. reflexivity.
    + injection H3 as H3. split; [congruence|].
      unfold filename. rewrite <- H3. reflexivity.
Qed.

Lemma empty_uid_is_used_as_is_witness :
  exists l w0,
    read_metadata quiet_env scenario_empty_uids empty_disk = (Ok l, w0)
    /\ study_folder l = lit "_E"
    /\ series_folder l = lit "CT_S"
    /\ filename l = lit "CT_0000_.dcm".
Proof.
  destruct (empty_uid_is_used_as_is quiet_env scenario_empty_uids empty_disk
              _ _ eq_refl eq_refl) as [Htotal Hprops].
  destruct Htotal as (l & w0 & Hread); [vm_compute; exact I ..|].
  destruct (Hprops l w0 Hread) as (Hstudy & Hseries & Hsop).
  destruct Hstudy as [_ H1]; [vm_compute; reflexivity|].
  destruct Hseries as [_ H2]; [vm_compute; reflexivity|].
  destruct Hsop as [_ H3]; [vm_compute; reflexivity|].
  exists l, w0. split; [exact Hread|].
  apply read_metadata_inv in Hread.
  destruct Hread as [(d & meta & Hd & _ & Hds & _ & _ & _ & _
                      & Hmod & Hnum & Hdate) _].
  injection Hd as <-. rewrite Hds in Hmod, Hnum, Hdate.
  rewrite H1, H2, H3, Hmod, Hnum, Hdate.
  repeat split; vm_compute; reflexivity.
Defined.

(** ** Modality and study date *)

Lemma split_slash_no_slash (s : pystr) :
  no_slash s = true -> split_slash s = [s].
Proof.
  unfold no_slash. induction s as [|c r IH]; simpl; [reflexivity|].
  intros H. apply andb_prop in H. destruct H as [Hc Hr].
  apply negb_true_iff in Hc. rewrite Hc, (IH Hr). reflexivity.
Qed.

(** A text without a slash that has an underscore is one component. *)
Lemma joinpath_one_component (p : Path) (s : pystr) :
  no_slash s = true -> In 95%N s -> joinpath p s = p ++ [s].
Proof.
  intros Hs Hu. unfold joinpath, path_parts.
  rewrite (split_slash_no_slash s Hs). simpl.
  assert (Hk : kept_component s = true).
  { destruct s as [|c [|c' r]]; [contradiction| |].
    - destruct Hu as [->|[]]. reflexivity.
    - unfold kept_component. destruct c as [|q]; [reflexivity|].
      repeat (destruct q as [q|q|]; try reflexivity). }
  rewrite Hk.
  destruct s as [|c r]; [contradiction|].
  simpl in Hs. apply andb_prop in Hs. destruct Hs as [Hc _].
  apply negb_true_iff, N.eqb_neq in Hc.
  destruct c as [|q]; [reflexivity|].
  repeat (destruct q as [q|q|]; try reflexivity). congruence.
Qed.

Lemma no_slash_app (a b : pystr) :
  no_slash (a ++ b) = no_slash a && no_slash b.
Proof. unfold no_slash. apply forallb_app. Qed.

Lemma joinpath_eq (p : Path) (s : pystr) :
  joinpath p s
  = if begins_with_slash s then path_parts s else p ++ path_parts s.
Proof.
  destruct s as [|c r]; [reflexivity|].
  destruct c as [|q]; [reflexivity|].
  repeat (destruct q as [q|q|]; try reflexivity).
Qed.

Lemma occurs_in_path_app (c : N) (p q : Path) :
  occurs_in_path c (p ++ q) = occurs_in_path c p || occurs_in_path c q.
Proof. apply existsb_app. Qed.

Lemma occurs_in_path_In (c : N) (p : Path) (comp : pystr) :
  In comp p -> In c comp -> occurs_in_path c p = true.
Proof.
  intros Hcomp Hc. apply existsb_exists. exists comp. split; [exact Hcomp|].
  apply existsb_exists. exists c. split; [exact Hc|apply N.eqb_refl].
Qed.

(** A character that is no slash stays in one of the pieces between the
    slashes, and no piece has a slash. *)
Lemma split_slash_In (c : N) (s : pystr) :
  In c s -> c <> 47%N ->
  exists comp, In comp (split_slash s) /\ In c comp.
Proof.
  intros Hin Hc. induction s as [|a r IH]; [contradiction|].
  simpl. destruct (a =? 47)%N eqn:Ea.
  - apply N.eqb_eq in Ea. destruct Hin as [->|Hin]; [contradiction|].
    destruct (IH Hin) as (comp & H1 & H2). exists comp. split; [right|]; auto.
  - destruct Hin as [->|Hin].
    + destruct (split_slash r) as [|h t]; eexists; (split; [left; eauto|]);
        left; reflexivity.
    + destruct (IH Hin) as (comp & H1 & H2).
      destruct (split_slash r) as [|h t]; [contradiction|].
      destruct H1 as [->|H1].
      * exists (a :: comp). split; [left; reflexivity|right; exact H2].
      * exists comp. split; [right; exact H1|exact H2].
Qed.

Lemma split_slash_pieces (s : pystr) :
  Forall (fun comp => no_slash comp = true) (split_slash s).
Proof.
  induction s as [|a r IH]; simpl.
  - repeat constructor.
  - destruct (a =? 47)%N eqn:Ea.
    + constructor; [reflexivity|exact IH].
    + destruct (split_slash r) as [|h t]; inversion IH; subst.
      * repeat constructor. simpl. rewrite Ea. reflexivity.
      * constructor; [|assumption]. simpl. rewrite Ea. simpl. assumption.
Qed.

Lemma kept_component_In (c : N) (comp : pystr) :
  In c comp -> c <> 46%N -> kept_component comp = true.
Proof.
  intros Hin Hc. destruct comp as [|a [|b r]]; [contradiction| |].
  - destruct Hin as [->|[]]. unfold kept_component.
    destruct c as [|q]; [reflexivity|].
    repeat (destruct q as [q|q|]; try reflexivity). contradiction.
  - unfold kept_component. destruct a as [|q]; [reflexivity|].
    repeat (destruct q as [q|q|]; try reflexivity).
Qed.

(** Every character of a text other than the slash and the dot stands in
    one of the components that the text gives. *)
Lemma path_parts_occurs (c : N) (s : pystr) :
  In c s -> c <> 47%N -> c <> 46%N ->
  occurs_in_path c (path_parts s) = true.
Proof.
  intros Hin H47 H46.
  destruct (split_slash_In c s Hin H47) as (comp & Hcomp & Hc).
  apply (occurs_in_path_In c _ comp); [|exact Hc].
  unfold path_parts. apply filter_In. split; [exact Hcomp|].
  exact (kept_component_In c comp Hc H46).
Qed.

Lemma no_slash_existsb (h : pystr) :
  no_slash h = true -> existsb (N.eqb 47) h = false.
Proof.
  unfold no_slash. induction h as [|a r IH]; [reflexivity|].
  cbn [forallb existsb]. intros H. apply andb_prop in H.
  destruct H as [Ha Hr]. apply negb_true_iff in Ha.
  rewrite N.eqb_sym, Ha, (IH Hr). reflexivity.
Qed.

(** No component that a text gives has a slash. *)
Lemma path_parts_no_slash (s : pystr) :
  occurs_in_path 47 (path_parts s) = false.
Proof.
  unfold occurs_in_path, path_parts.
  pose proof (split_slash_pieces s) as H.
  induction (split_slash s) as [|h t IH]; [reflexivity|].
  inversion H; subst. cbn [List.filter].
  destruct (kept_component h); [|auto].
  cbn [existsb]. rewrite IH by assumption.
  rewrite no_slash_existsb by assumption. reflexivity.
Qed.

Lemma joinpath_occurs (c : N) (p : Path) (s : pystr) :
  occurs_in_path c (path_parts s) = true ->
  occurs_in_path c (joinpath p s) = true.
Proof.
  intros H. rewrite joinpath_eq.
  destruct (begins_with_slash s); [exact H|].
  rewrite occurs_in_path_app, H. apply orb_true_r.
Qed.

Lemma joinpath_relative_occurs (c : N) (p : Path) (s : pystr) :
  begins_with_slash s = false ->
  occurs_in_path c p = true ->
  occurs_in_path c (joinpath p s) = true.
Proof.
  intros Hs H. rewrite joinpath_eq, Hs, occurs_in_path_app, H. reflexivity.
Qed.

Lemma begins_with_slash_app (a b : pystr) :
  begins_with_slash (a ++ 95%N :: b) = begins_with_slash a.
Proof. destruct a; reflexivity. Qed.

(** The series folder and the filename begin with a slash when the text
    of Modality does, and only then. *)
Lemma series_folder_begins (l : Locals) :
  begins_with_slash (series_folder l)
  = begins_with_slash (py_str (modality l)).
Proof.
  unfold series_folder. change (lit "_S") with [95; 83]%N.
  apply begins_with_slash_app.
Qed.

Lemma filename_begins (l : Locals) :
  begins_with_slash (filename l) = begins_with_slash (py_str (modality l)).
Proof.
  unfold filename. change (lit "_") with [95]%N.
  apply begins_with_slash_app.
Qed.

(** When none of the texts has a slash, each of the three names is one
    component. *)
Lemma target_path_slash_free (w : World) (l : Locals) :
  slash_free l = true ->
  target_path w l
  = joinpath (base_path w) (patient_folder l)
    ++ [study_folder l; series_folder l; filename l].
Proof.
  intros Hfree. unfold slash_free in Hfree.
  repeat (apply andb_prop in Hfree; destruct Hfree as [Hfree ?]).
  unfold target_path.
  rewrite (joinpath_one_component _ (study_folder l)).
  2:{ unfold study_folder. rewrite !no_slash_app, Hfree.
      match goal with H : no_slash (py_str (study_uid l)) = true |- _ =>
        rewrite H end. reflexivity. }
  2:{ unfold study_folder. apply in_or_app. right. left. reflexivity. }
  rewrite (joinpath_one_component _ (series_folder l)).
  2:{ unfold series_folder. rewrite !no_slash_app.
      repeat match goal with H : no_slash _ = true |- _ =>
        rewrite H; clear H end. reflexivity. }
  2:{ unfold series_folder. apply in_or_app. right. left. reflexivity. }
  rewrite (joinpath_one_component _ (filename l)).
  2:{ unfold filename. rewrite !no_slash_app.
      repeat match goal with H : no_slash _ = true |- _ =>
        rewrite H; clear H end. reflexivity. }
  2:{ unfold filename. apply in_or_app. right. left. reflexivity. }
  rewrite <- !app_assoc. reflexivity.
Qed.

(** C10, as the code has it. Let the metadata be read. (1) The study
    folder begins with the text of StudyDate as the dataset has it, and
    the series folder and the filename begin with the text of Modality as
    the dataset has it: nothing is replaced and nothing is cut, so every
    character of either value is in the name and the name is at least as
    long. (2) These names are what is joined, in order, to the output
    folder: when the directories are ensured, the directory returned and
    the target path are those joins. (3) Every character of the text of
    Modality other than the slash and the dot stands in a component of the
    target path, and so does every such character of the text of
    StudyDate when the text of Modality does not begin with a slash.
    (4) When no text has a slash, the three names are, whole, the last
    three components of the target path. (5) A slash is never a character
    of a component that a name gives: it separates components. (6) When
    the text of Modality begins with a slash, the target path has the
    components of the filename and no others. *)
Theorem modality_and_study_date_verbatim (env : Env) (event : Event)
    (w w0 : World) (l : Locals) (d : Dataset) :
  dataset event = Ok d ->
  read_metadata env event w = (Ok l, w0) ->
  (forall sd : pystr,
     ds_elements d !! "StudyDate" = Some (VStr sd) ->
     study_folder l = sd ++ lit "_E" ++ py_str (study_uid l)
     /\ (forall c, In c sd -> In c (study_folder l))
     /\ (length sd <= length (study_folder l))%nat)
  /\ (forall m : pystr,
        ds_elements d !! "Modality" = Some (VStr m) ->
        series_folder l = m ++ lit "_S" ++ py_str (series_uid l)
        /\ filename l
           = m ++ lit "_" ++ instance_number l ++ lit "_"
             ++ py_str (sop_instance_uid l) ++ lit ".dcm"
        /\ (forall c, In c m ->
              In c (series_folder l) /\ In c (filename l))
        /\ (length m <= length (series_folder l))%nat
        /\ (length m <= length (filename l))%nat)
  /\ (forall sp w1,
        create_safe_path env (base_path w0) (folders l) w0
        = (Ok (Some sp), w1) ->
        sp = joinpath
               (joinpath (joinpath (base_path w0) (patient_folder l))
                  (study_folder l))
               (series_folder l)
        /\ joinpath sp (filename l) = target_path w0 l)
  /\ (forall (m : pystr) (c : N),
        ds_elements d !! "Modality" = Some (VStr m) ->
        In c m -> c <> 47%N -> c <> 46%N ->
        occurs_in_path c (target_path w0 l) = true)
  /\ (forall (sd : pystr) (c : N),
        ds_elements d !! "StudyDate" = Some (VStr sd) ->
        begins_with_slash (py_str (modality l)) = false ->
        In c sd -> c <> 47%N -> c <> 46%N ->
        occurs_in_path c (target_path w0 l) = true)
  /\ (slash_free l = true ->
      target_path w0 l
      = joinpath (base_path w0) (patient_folder l)
        ++ [study_folder l; series_folder l; filename l])
  /\ (occurs_in_path 47 (path_parts (study_folder l)) = false
      /\ occurs_in_path 47 (path_parts (series_folder l)) = false
      /\ occurs_in_path 47 (path_parts (filename l)) = false)
  /\ (begins_with_slash (py_str (modality l)) = true ->
      target_path w0 l = path_parts (filename l)).
Proof.
  intros Hd Hread.
  apply read_metadata_inv in Hread.
  destruct Hread as [(d' & meta & Hd' & _ & Hds & _ & _ & _ & _
                      & Hmod & _ & Hdate) _].
  rewrite Hd in Hd'. injection Hd' as <-.
  rewrite Hds, ds_get_set_file_meta in Hmod, Hdate.
  assert (Hnames_sd : forall sd,
             ds_elements d !! "StudyDate" = Some (VStr sd) ->
             study_folder l = sd ++ lit "_E" ++ py_str (study_uid l)).
  { intros sd Hsd. rewrite (ds_get_present _ _ _ _ Hsd) in Hdate.
    unfold study_folder. rewrite Hdate. reflexivity. }
  assert (Hnames_m : forall m,
             ds_elements d !! "Modality" = Some (VStr m) ->
             py_str (modality l) = m).
  { intros m Hm. rewrite (ds_get_present _ _ _ _ Hm) in Hmod.
    rewrite Hmod. reflexivity. }
  split; [|split; [|split; [|split; [|split; [|split; [|split]]]]]].
  - intros sd Hsd. rewrite (Hnames_sd sd Hsd).
    split; [reflexivity|]. split.
    + intros c Hc. apply in_or_app. left. exact Hc.
    + rewrite length_app. lia.
  - intros m Hm. unfold series_folder, filename. rewrite (Hnames_m m Hm).
    split; [reflexivity|]. split; [reflexivity|]. split; [|split].
    + intros c Hc. split; apply in_or_app; left; exact Hc.
    + rewrite length_app. lia.
    + rewrite length_app. lia.
  - intros sp w1 Hcsp. unfold create_safe_path in Hcsp.
    apply create_safe_path_loop_path in Hcsp. subst sp.
    split; reflexivity.
  - intros m c Hm Hc H47 H46. unfold target_path.
    apply joinpath_occurs, path_parts_occurs; [|exact H47|exact H46].
    unfold filename. rewrite (Hnames_m m Hm).
    apply in_or_app. left. exact Hc.
  - intros sd c Hsd Hrel Hc H47 H46. unfold target_path.
    apply joinpath_relative_occurs;
      [rewrite filename_begins; exact Hrel|].
    apply joinpath_relative_occurs;
      [rewrite series_folder_begins; exact Hrel|].
    apply joinpath_occurs, path_parts_occurs; [|exact H47|exact H46].
    rewrite (Hnames_sd sd Hsd). apply in_or_app. left. exact Hc.
  - apply target_path_slash_free.
  - repeat split; apply path_parts_no_slash.
  - intros Habs. unfold target_path. rewrite joinpath_eq, filename_begins, Habs.
    reflexivity.
Qed.

Lemma modality_and_study_date_verbatim_witness :
  exists l w0,
    read_metadata quiet_env scenario_unsafe_modality empty_disk = (Ok l, w0)
    /\ study_folder l = lit "2024/01_E999999999999"
    /\ series_folder l = lit "C:T/x*_S40.10008.5.1"
    /\ filename l = lit "C:T/x*_0003_.10008.5.1.7.dcm"
    /\ occurs_in_path 58 (target_path w0 l) = true
    /\ occurs_in_path 42 (target_path w0 l) = true.
Proof.
  destruct (read_metadata_total quiet_env scenario_unsafe_modality
              empty_disk _ _ eq_refl eq_refl) as (l & w0 & Hread);
    [vm_compute; exact I ..|].
  destruct (modality_and_study_date_verbatim quiet_env
              scenario_unsafe_modality empty_disk w0 l _ eq_refl Hread)
    as (Hsd & Hm & _ & Hocc & _).
  destruct (Hsd (lit "2024/01")) as (Hstudy & _);
    [vm_compute; reflexivity|].
  destruct (Hm (lit "C:T/x*")) as (Hseries & Hfile & _);
    [vm_compute; reflexivity|].
  assert (Hcolon : occurs_in_path 58 (target_path w0 l) = true).
  { apply (Hocc (lit "C:T/x*")); [vm_compute; reflexivity| |lia|lia].
    vm_compute. auto. }
  assert (Hstar : occurs_in_path 42 (target_path w0 l) = true).
  { apply (Hocc (lit "C:T/x*")); [vm_compute; reflexivity| |lia|lia].
    vm_compute. auto 10. }
  exists l, w0. split; [exact Hread|].
  apply read_metadata_inv in Hread.
  destruct Hread as [(d & meta & Hd & _ & Hds & _ & H1 & H2 & H3
                      & _ & Hnum & _) _].
  injection Hd as <-. rewrite Hds in H1, H2, H3, Hnum.
  assert (E1 : Ok (study_uid l) = Ok (VStr (lit "999999999999")))
    by (rewrite <- H1; vm_compute; reflexivity).
  assert (E2 : Ok (series_uid l) = Ok (VStr (lit "40.10008.5.1")))
    by (rewrite <- H2; vm_compute; reflexivity).
  assert (E3 : Ok (sop_instance_uid l) = Ok (VStr (lit ".10008.5.1.7")))
    by (rewrite <- H3; vm_compute; reflexivity).
  injection E1 as E1. injection E2 as E2. injection E3 as E3.
  rewrite Hstudy, Hseries, Hfile, E1, E2, E3, Hnum.
  split; [vm_compute; reflexivity|]. split; [vm_compute; reflexivity|].
  split; [vm_compute; reflexivity|]. split; [exact Hcolon|exact Hstar].
Defined.

(** C10 as stated fails: the characters of StudyDate need not be in the
    storage path. On an instance whose StudyDate has a star and whose
    Modality begins with a slash, the filename is an absolute path: the
    object is stored, under the root, at the path the filename gives, in
    which the star is not, and nothing of the study folder is. *)
Lemma study_date_not_in_storage_path :
  (exists d,
     dataset scenario_starred_date = Ok d
     /\ ds_elements d !! "StudyDate" = Some (VStr (lit "2024*01")))
  /\ In 42%N (lit "2024*01")
  /\ is_problem_char 42 = true
  /\ storage_path quiet_env scenario_starred_date empty_disk
     = Ok [lit "tmp"; lit "x_0003_.10008.5.1.7.dcm"]
  /\ occurs_in_path 42 [lit "tmp"; lit "x_0003_.10008.5.1.7.dcm"] = false
  /\ fst (handle_store quiet_env scenario_starred_date empty_disk)
     = Ok 0x0000
  /\ map fst (map_to_list
                (files (snd (handle_store quiet_env scenario_starred_date
                               empty_disk))))
     = [[lit "tmp"; lit "x_0003_.10008.5.1.7.dcm"]].
Proof.
  split; [eexists; split; [reflexivity|vm_compute; reflexivity]|].
  split; [vm_compute; auto 10|].
  repeat split; vm_compute; reflexivity.
Qed.

(** On the instance above whose Modality has a slash within, the slashes
    of the two values act as separators: the target path lies four
    directories below the patient folder, and the last of them, which the
    filename names, is not one of the directories ensured; the write finds
    no directory to write into and the handler returns 0xC002. *)
Example unsafe_modality_not_stored :
  storage_path quiet_env scenario_unsafe_modality empty_disk
  = Ok [lit "srv"; lit "estudios_recibidos"; lit "John_Doe_P1";
        lit "2024"; lit "01_E999999999999"; lit "C:T";
        lit "x*_S40.10008.5.1"; lit "C:T";
        lit "x*_0003_.10008.5.1.7.dcm"]
  /\ fst (handle_store quiet_env scenario_unsafe_modality empty_disk)
     = Ok 0xC002
  /\ files (snd (handle_store quiet_env scenario_unsafe_modality
                   empty_disk)) = ∅.
Proof. repeat split; vm_compute; reflexivity. Qed.

(** * Further properties *)

(** ** The identifier sanitizer, continued *)

Lemma problem_char_not_space (c : N) :
  is_problem_char c = true -> isspace c = false.
Proof.
  unfold is_problem_char. intros H.
  apply existsb_exists in H. destruct H as [x [Hin Heq]].
  apply N.eqb_eq in Heq. subst x.
  simpl in Hin.
  repeat (destruct Hin as [<-|Hin]; [reflexivity|]). contradiction.
Qed.

Lemma isspace_underscore_problem_char (c : N) :
  isspace (underscore_problem_char c) = is_stripped_char c.
Proof.
  unfold underscore_problem_char, is_stripped_char.
  destruct (is_problem_char c) eqn:Hp; simpl.
  - rewrite (problem_char_not_space c Hp). reflexivity.
  - destruct (c =? 32)%N eqn:Hs; simpl.
    + rewrite andb_false_r. reflexivity.
    + rewrite andb_true_r. reflexivity.
Qed.

Lemma lstrip_nil (s : pystr) :
  lstrip s = [] <-> forallb isspace s = true.
Proof.
  induction s as [|c r IH]; simpl; [tauto|].
  destruct (isspace c); simpl; [exact IH|].
  split; discriminate.
Qed.

Lemma lstrip_head (s r : pystr) (c : N) :
  lstrip s = c :: r -> isspace c = false.
Proof.
  induction s as [|a t IH]; simpl; [discriminate|].
  destruct (isspace a) eqn:Ha; [exact IH|].
  intros H. injection H as <- _. exact Ha.
Qed.

Lemma forallb_rev {A : Type} (f : A -> bool) (l : list A) :
  forallb f (rev l) = forallb f l.
Proof.
  induction l as [|a l IH]; simpl; [reflexivity|].
  rewrite forallb_app, IH. simpl. rewrite andb_true_r. apply andb_comm.
Qed.

Lemma forallb_map_ext {A B : Type} (f : B -> bool) (g : A -> B)
    (h : A -> bool) (l : list A) :
  (forall a, f (g a) = h a) -> forallb f (map g l) = forallb h l.
Proof.
  intros E. induction l as [|a l IH]; simpl; [reflexivity|].
  rewrite E, IH. reflexivity.
Qed.

Lemma strip_nil (s : pystr) :
  strip s = [] <-> forallb isspace s = true.
Proof.
  unfold strip, rstrip. split.
  - intros H. apply (f_equal (@rev N)) in H.
    rewrite rev_involutive in H. simpl in H.
    apply lstrip_nil in H. rewrite forallb_rev in H.
    destruct (lstrip s) as [|c r] eqn:Hl; [apply lstrip_nil; exact Hl|].
    apply lstrip_head in Hl. simpl in H. rewrite Hl in H. discriminate H.
  - intros H. apply lstrip_nil in H. rewrite H. reflexivity.
Qed.

Lemma lstrip_id (s : pystr) :
  forallb (fun c => negb (isspace c)) s = true -> lstrip s = s.
Proof.
  destruct s as [|c r]; simpl; [reflexivity|].
  destruct (isspace c); [discriminate|reflexivity].
Qed.

Lemma strip_id (s : pystr) :
  forallb (fun c => negb (isspace c)) s = true -> strip s = s.
Proof.
  intros H. unfold strip, rstrip. rewrite (lstrip_id s H).
  rewrite lstrip_id by (rewrite forallb_rev; exact H).
  apply rev_involutive.
Qed.

Lemma slice_to_nil (n : nat) (s : pystr) :
  slice_to (S n) s = [] <-> s = [].
Proof. unfold slice_to. destruct s; simpl; split; congruence. Qed.

Lemma underscore_problem_char_kept (c : N) :
  is_kept_char c = true -> underscore_problem_char c = c.
Proof.
  unfold is_kept_char, underscore_problem_char. intros H.
  apply andb_prop in H. destruct H as [Hp Hs].
  apply negb_true_iff in Hp, Hs. rewrite Hp. simpl.
  destruct (c =? 32)%N eqn:H32; [|reflexivity].
  apply N.eqb_eq in H32. subst c. discriminate Hs.
Qed.

Lemma underscore_problem_char_idem (c : N) :
  underscore_problem_char (underscore_problem_char c)
  = underscore_problem_char c.
Proof.
  pose proof (underscore_problem_char_clean c) as H.
  unfold is_clean_char in H. apply andb_prop in H. destruct H as [Hp Hs].
  apply negb_true_iff in Hp, Hs.
  unfold underscore_problem_char at 1. rewrite Hp, Hs. reflexivity.
Qed.

Lemma strip_length (s : pystr) : (length (strip s) <= length s)%nat.
Proof.
  assert (Hl : forall t : pystr, (length (lstrip t) <= length t)%nat).
  { induction t as [|c r IH]; simpl; [lia|].
    destruct (isspace c); simpl; lia. }
  unfold strip, rstrip. rewrite length_rev.
  etransitivity; [apply Hl|]. rewrite length_rev. apply Hl.
Qed.

(** X1. The token is never longer than the cap of 50 characters, and,
    unless it is the fallback token, never longer than the text it comes
    from. *)
Theorem clean_filename_capped (name : value) :
  (length (clean_filename name) <= 50)%nat
  /\ (clean_filename name = lit "Sin_nombre"
      \/ length (clean_filename name) <= length (py_str name))%nat.
Proof.
  split; [apply clean_filename_length|].
  destruct (truthy name) eqn:H.
  - right. rewrite clean_filename_text by assumption.
    unfold slice_to. rewrite length_firstn.
    pose proof (strip_length (map underscore_problem_char (py_str name))).
    rewrite length_map in *. lia.
  - left. apply clean_filename_fallback. assumption.
Qed.

(** X2. The token is empty exactly for the names that are not empty or
    missing and whose text is made of white space other than the space
    (tabs, line ends, no-break or ideographic spaces). *)
Theorem clean_filename_empty_iff (name : value) :
  clean_filename name = []
  <-> truthy name = true
      /\ forallb is_stripped_char (py_str name) = true.
Proof.
  destruct (truthy name) eqn:H.
  - rewrite clean_filename_text by assumption.
    unfold DICOMServerConfig.MAX_FOLDER_LENGTH.
    rewrite slice_to_nil, strip_nil.
    rewrite (forallb_map_ext isspace underscore_problem_char
               is_stripped_char)
      by apply isspace_underscore_problem_char.
    tauto.
  - rewrite clean_filename_fallback by assumption.
    split; [discriminate|]. intros [Hf _]. discriminate Hf.
Qed.

Lemma clean_filename_empty_iff_witness :
  clean_filename (VStr [9%N; 160%N; 12288%N]) = [].
Proof.
  apply (proj2 (clean_filename_empty_iff (VStr [9%N; 160%N; 12288%N]))).
  split; reflexivity.
Defined.

Lemma clean_filename_kept (c : N) (s : pystr) :
  forallb is_kept_char (c :: s) = true ->
  (length (c :: s) <= 50)%nat ->
  clean_filename (VStr (c :: s)) = c :: s.
Proof.
  intros Hk Hlen. rewrite clean_filename_text by reflexivity.
  simpl py_str.
  assert (Hmap : map underscore_problem_char (c :: s) = c :: s).
  { rewrite <- (map_id (c :: s)) at 2. apply map_ext_in.
    intros a Ha. apply underscore_problem_char_kept.
    rewrite forallb_forall in Hk. apply Hk. exact Ha. }
  rewrite Hmap. rewrite strip_id.
  - unfold slice_to. apply firstn_all2. exact Hlen.
  - apply forallb_forall. intros a Ha.
    rewrite forallb_forall in Hk. specialize (Hk a Ha).
    unfold is_kept_char in Hk. apply andb_prop in Hk. apply Hk.
Qed.

(** X3. A name of at most 50 characters that has none of the characters
    of the pattern and no white space is its own token. *)
Theorem clean_filename_keeps_safe_name (c : N) (s : pystr) :
  forallb is_kept_char (c :: s) = true ->
  (length (c :: s) <= 50)%nat ->
  clean_filename (VStr (c :: s)) = c :: s.
Proof.
  intros Hk Hlen. rewrite forallb_forall in Hk.
  rewrite clean_filename_text by reflexivity. simpl py_str.
  replace (map underscore_problem_char (c :: s)) with (c :: s).
  - rewrite strip_id.
    + unfold slice_to. apply firstn_all2. exact Hlen.
    + apply forallb_forall. intros a Ha. specialize (Hk a Ha).
      unfold is_kept_char in Hk. apply andb_prop in Hk. apply Hk.
  - rewrite <- (map_id (c :: s)) at 1. apply map_ext_in.
    intros a Ha. symmetry. apply underscore_problem_char_kept, Hk, Ha.
Qed.

Lemma clean_filename_keeps_safe_name_witness :
  clean_filename (VStr (lit "P1")) = lit "P1".
Proof.
  apply (clean_filename_keeps_safe_name 80%N [49%N]).
  - reflexivity.
  - simpl. lia.
Defined.

(** X4. The token does not tell a character of the pattern, or a space,
    from an underscore: a name and the same name with these characters
    written as underscores have the same token. *)
Theorem clean_filename_confuses_underscores (s : pystr) :
  clean_filename (VStr (map underscore_problem_char s))
  = clean_filename (VStr s).
Proof.
  destruct s as [|c s0] eqn:E; [reflexivity|]. rewrite <- E.
  rewrite !clean_filename_text by (rewrite E; reflexivity).
  unfold py_str. rewrite map_map.
  rewrite (map_ext _ underscore_problem_char)
    by (intros a; apply underscore_problem_char_idem).
  reflexivity.
Qed.

(** ** [shorten_uid], continued *)

(** X5. On text, [shorten_uid] returns the end of the identifier: its
    last twelve characters, or all of it when it has twelve or fewer.
    On [None] and on an integer it raises [TypeError]. *)
Theorem shorten_uid_keeps_suffix :
  (forall s : pystr,
     exists pre t,
       shorten_uid (VStr s) = Ok (VStr t)
       /\ s = pre ++ t
       /\ length t = Nat.min 12 (length s))
  /\ shorten_uid VNone = Raise TypeError
  /\ (forall z, shorten_uid (VInt z) = Raise TypeError).
Proof.
  split; [|split; reflexivity].
  intros s. rewrite shorten_uid_text.
  destruct (12 <? length s)%nat eqn:H.
  - apply Nat.ltb_lt in H.
    exists (firstn (length s - 12) s), (slice_last 12 s).
    split; [reflexivity|]. split.
    + unfold slice_last. symmetry. apply firstn_skipn.
    + rewrite slice_last_length by lia. lia.
  - apply Nat.ltb_ge in H. exists [], s.
    split; [reflexivity|]. split; [reflexivity|]. lia.
Qed.

(** ** [get_patient_folder_name] *)

Lemma clean_filename_all_clean (name : value) :
  forallb is_clean_char (clean_filename name) = true.
Proof.
  destruct (truthy name) eqn:H.
  - rewrite clean_filename_text by assumption.
    apply forallb_forall.
    apply (proj1 (List.Forall_forall (fun c => is_clean_char c = true) _)).
    apply slice_to_Forall, strip_Forall.
    apply List.Forall_forall. intros c Hc.
    apply in_map_iff in Hc. destruct Hc as [c0 [<- _]].
    apply underscore_problem_char_clean.
  - rewrite clean_filename_fallback by assumption. reflexivity.
Qed.

Lemma get_patient_folder_name_clean (d : Dataset) :
  forallb is_clean_char (get_patient_folder_name d) = true.
Proof.
  unfold get_patient_folder_name. rewrite !forallb_app.
  rewrite !clean_filename_all_clean. reflexivity.
Qed.

Lemma get_patient_folder_name_underscore (d : Dataset) :
  In 95%N (get_patient_folder_name d).
Proof.
  unfold get_patient_folder_name. apply in_or_app. right.
  apply in_or_app. left. left. reflexivity.
Qed.

(** X6. The patient folder name has between 1 and 101 characters, has
    an underscore, and has none of the characters of the pattern and no
    space, whatever the dataset. *)
Theorem get_patient_folder_name_shape (d : Dataset) :
  (1 <= length (get_patient_folder_name d) <= 101)%nat
  /\ In 95%N (get_patient_folder_name d)
  /\ forallb is_clean_char (get_patient_folder_name d) = true.
Proof.
  split; [|split; [|apply get_patient_folder_name_clean]].
  - unfold get_patient_folder_name. rewrite !length_app.
    pose proof (clean_filename_length (ds_get d "PatientID" (VStr (lit "Sin_ID")))).
    pose proof (clean_filename_length
                  (ds_get d "PatientName" (VStr (lit "Sin_nombre")))).
    unfold DICOMServerConfig.MAX_FOLDER_LENGTH in *.
    change (length (lit "_")) with 1%nat. lia.
  - apply get_patient_folder_name_underscore.
Qed.

(** X7. What stands for the patient identifier in the folder name: the
    text [Sin_ID] when the dataset has no PatientID, the fallback token
    [Sin_nombre] when it has one that is empty (or [None], or zero), and
    the token of its value otherwise. *)
Theorem get_patient_folder_name_id_part (d : Dataset) :
  get_patient_folder_name d
  = patient_name_token d ++ lit "_"
    ++ match ds_elements d !! "PatientID" with
       | None => lit "Sin_ID"
       | Some v => if truthy v then clean_filename v else lit "Sin_nombre"
       end.
Proof.
  unfold get_patient_folder_name, patient_name_token, ds_get.
  destruct (ds_elements d !! "PatientID") as [v|]; simpl default.
  - destruct (truthy v) eqn:H; [reflexivity|].
    rewrite (clean_filename_fallback v H). reflexivity.
  - reflexivity.
Qed.

Lemma is_kept_char_underscore : is_kept_char 95 = true.
Proof. reflexivity. Qed.

(** X8. The folder name does not tell where the name ends and the
    identifier begins: the patient named [a_b] with identifier [c] and the
    patient named [a] with identifier [b_c] have the same folder. *)
Theorem get_patient_folder_name_collision (a b c : pystr) :
  a <> [] -> c <> [] ->
  forallb is_kept_char (a ++ b ++ c) = true ->
  (length a + length b + length c < 50)%nat ->
  get_patient_folder_name (patient_dataset (a ++ lit "_" ++ b) c)
  = get_patient_folder_name (patient_dataset a (b ++ lit "_" ++ c)).
Proof.
  intros Ha Hc Hk Hlen.
  rewrite !forallb_app in Hk.
  apply andb_prop in Hk. destruct Hk as [Hka Hk].
  apply andb_prop in Hk. destruct Hk as [Hkb Hkc].
  assert (Hclean : forall s : pystr,
             s <> [] -> forallb is_kept_char s = true ->
             (length s <= 50)%nat -> clean_filename (VStr s) = s).
  { intros s Hs Hks Hl. destruct s as [|x s]; [congruence|].
    apply clean_filename_kept; assumption. }
  unfold get_patient_folder_name, patient_dataset, ds_get.
  cbn [ds_elements].
  assert (L1 : forall (n i : pystr),
             (list_to_map [("PatientName", VStr n); ("PatientID", VStr i)]
                : gmap string value) !! "PatientID" = Some (VStr i)).
  { intros. reflexivity. }
  assert (L2 : forall (n i : pystr),
             (list_to_map [("PatientName", VStr n); ("PatientID", VStr i)]
                : gmap string value) !! "PatientName" = Some (VStr n)).
  { intros. reflexivity. }
  rewrite !L1, !L2. cbn [default from_option id].
  rewrite (Hclean a Ha Hka) by lia.
  rewrite (Hclean c Hc Hkc) by lia.
  rewrite (Hclean (a ++ lit "_" ++ b)).
  - rewrite (Hclean (b ++ lit "_" ++ c)).
    + rewrite <- !app_assoc. reflexivity.
    + destruct b; discriminate.
    + rewrite !forallb_app, Hkb, Hkc. reflexivity.
    + rewrite !length_app. change (length (lit "_")) with 1%nat. lia.
  - destruct a; [congruence|discriminate].
  - rewrite !forallb_app, Hka, Hkb. reflexivity.
  - rewrite !length_app. change (length (lit "_")) with 1%nat. lia.
Qed.

Lemma get_patient_folder_name_collision_witness :
  get_patient_folder_name (patient_dataset (lit "DOE_JOHN") (lit "7"))
  = get_patient_folder_name (patient_dataset (lit "DOE") (lit "JOHN_7")).
Proof.
  apply (get_patient_folder_name_collision (lit "DOE") (lit "JOHN") (lit "7")).
  - discriminate.
  - discriminate.
  - reflexivity.
  - simpl. lia.
Defined.

(** ** Paths *)

Lemma clean_no_slash (s : pystr) :
  forallb is_clean_char s = true -> no_slash s = true.
Proof.
  unfold no_slash. intros H. apply forallb_forall. intros c Hc.
  rewrite forallb_forall in H. specialize (H c Hc).
  unfold is_clean_char in H. apply andb_prop in H. destruct H as [Hp _].
  destruct (c =? 47)%N eqn:E; [|reflexivity].
  apply N.eqb_eq in E. subst c. discriminate Hp.
Qed.

(** X9. The patient directory is always exactly one level below the path
    it is joined to: no PatientName or PatientID can make it leave the
    output folder or go deeper. *)
Theorem patient_folder_one_level (p : Path) (d : Dataset) :
  joinpath p (get_patient_folder_name d) = p ++ [get_patient_folder_name d].
Proof.
  apply joinpath_one_component.
  - apply clean_no_slash, get_patient_folder_name_clean.
  - apply get_patient_folder_name_underscore.
Qed.

(** ** [create_safe_path], continued *)

(** X10. [create_safe_path] never raises: it returns a directory or
    [None]. It changes no file and removes no directory. *)
Theorem create_safe_path_never_raises (env : Env) (base_folder : Path)
    (subfolders : list pystr) (w : World) :
  exists (o : option Path) (w' : World),
    create_safe_path env base_folder subfolders w = (Ok o, w')
    /\ files w' = files w /\ dirs w ⊆ dirs w' /\ cwd w' = cwd w.
Proof.
  unfold create_safe_path.
  destruct (create_safe_path_loop env base_folder subfolders w)
    as [r w'] eqn:H.
  apply create_safe_path_loop_grows in H.
  destruct H as [(Hc & Hf & _ & Hd) [o ->]]. eauto 10.
Qed.

Lemma create_safe_path_loop_levels (env : Env) (subfolders : list pystr) :
  forall (path : Path) (w w' : World) (o : option Path),
    create_safe_path_loop env path subfolders w = (Ok o, w') ->
    match o with
    | Some sp =>
        sp = fold_left joinpath subfolders path
        /\ Forall (fun q => is_dir w' q = true) (levels path subfolders)
    | None =>
        exists t, trace w' = t ++ [Log ERROR "No se pudo crear directorio"]
    end.
Proof.
  induction subfolders as [|folder rest IH]; intros path w w' o.
  - simpl. unfold ret. intros H. injection H as <- <-. auto.
  - rewrite create_safe_path_loop_cons.
    destruct (mkdir env (joinpath path folder) w) as [[[]|e] w1] eqn:Hm.
    + intros H.
      pose proof (create_safe_path_loop_grows _ _ _ _ _ _ H) as [Hg _].
      apply mkdir_spec in Hm. destruct Hm as [_ Hd]. specialize (Hd eq_refl).
      apply IH in H. destruct o as [sp|].
      * destruct H as [-> Hall]. split; [reflexivity|].
        simpl. constructor; [|exact Hall].
        eapply is_dir_grows; eassumption.
      * exact H.
    + intros H. injection H as <- <-. exists (trace w1). reflexivity.
Qed.

(** X11. What [create_safe_path] returns. Either it returns a directory:
    then this is the base joined with the levels in order, and every
    level is a directory afterwards. Or it returns [None]: then the last
    thing it did was to log that a directory could not be created. *)
Theorem create_safe_path_result (env : Env) (base_folder : Path)
    (subfolders : list pystr) (w w' : World) (o : option Path) :
  create_safe_path env base_folder subfolders w = (Ok o, w') ->
  (o = Some (fold_left joinpath subfolders base_folder)
   /\ Forall (fun q => is_dir w' q = true) (levels base_folder subfolders))
  \/ (o = None
      /\ exists t,
           trace w' = t ++ [Log ERROR "No se pudo crear directorio"]).
Proof.
  unfold create_safe_path. intros H.
  apply create_safe_path_loop_levels in H. destruct o as [sp|].
  - left. destruct H as [-> Hall]. auto.
  - right. auto.
Qed.

Lemma create_safe_path_result_witness :
  exists w',
    create_safe_path quiet_env (base_path empty_disk)
      [lit "a"; lit "b"] empty_disk
    = (Ok (Some [lit "srv"; lit "estudios_recibidos"; lit "a"; lit "b"]), w')
    /\ is_dir w' [lit "srv"; lit "estudios_recibidos"; lit "a"] = true.
Proof.
  pose (m := create_safe_path quiet_env (base_path empty_disk)
               [lit "a"; lit "b"]).
  assert (Hrun : m empty_disk
                 = (Ok (Some [lit "srv"; lit "estudios_recibidos"; lit "a";
                              lit "b"]), snd (m empty_disk)))
    by (refine (run_result m empty_disk _ _); vm_compute; reflexivity).
  exists (snd (m empty_disk)). split; [exact Hrun|].
  destruct (create_safe_path_result _ _ _ _ _ _ Hrun) as [[_ Hall]|[H _]];
    [|discriminate H].
  apply Forall_cons in Hall. apply Hall.
Defined.

(** ** [handle_store]: what a call leaves on the disk *)

Lemma is_file_false (w : World) (p : Path) :
  is_file w p = false -> files w !! p = None.
Proof.
  unfold is_file. intros H. apply bool_decide_eq_false in H.
  apply eq_None_not_Some. exact H.
Qed.

Lemma target_path_fold (w : World) (l : Locals) :
  joinpath (fold_left joinpath (folders l) (base_path w)) (filename l)
  = target_path w l.
Proof. reflexivity. Qed.

(** What a call does to the world, whatever it returns: the files are
    those of before, or those of before and one more at the target path,
    where there was none. *)
Lemma handle_store_frame (env : Env) (event : Event) (w w' : World)
    (r : result Z) :
  handle_store env event w = (r, w') ->
  cwd w' = cwd w /\ dirs w ⊆ dirs w'
  /\ (files w' = files w
      \/ exists l w0 c,
           read_metadata env event w = (Ok l, w0)
           /\ files w !! target_path w0 l = None
           /\ files w' = <[target_path w0 l := c]> (files w)).
Proof.
  rewrite handle_store_eq, handle_store_body_eq.
  destruct (read_metadata env event w) as [[l|e] w0] eqn:Hread;
    pose proof (read_metadata_fs _ _ _ _ _ Hread) as (Hc0 & Hd0 & Hf0).
  2:{ intros [= <- <-]. simpl. rewrite Hd0. auto. }
  destruct (create_safe_path env (base_path w0) (folders l) w0)
    as [[[sp|]|e] w1] eqn:Hcsp;
    pose proof (create_safe_path_loop_grows _ _ _ _ _ _ Hcsp)
      as [(Hc1 & Hf1 & _ & Hd1) _].
  2:{ intros [= <- <-]. simpl. rewrite <- Hd0. split; [congruence|].
      split; [exact Hd1|]. left. congruence. }
  2:{ intros [= <- <-]. simpl. rewrite <- Hd0. split; [congruence|].
      split; [exact Hd1|]. left. congruence. }
  pose proof (create_safe_path_loop_path _ _ _ _ _ _ Hcsp) as ->.
  rewrite target_path_fold. cbv zeta.
  set (target := target_path w0 l).
  destruct (path_exists (record_effect (ExistsCheck target) w1) target)
    eqn:Hex.
  { intros [= <- <-]. simpl. rewrite <- Hd0. split; [congruence|].
    split; [exact Hd1|]. left. congruence. }
  apply orb_false_elim in Hex. destruct Hex as [Hdir Hfile].
  apply is_file_false in Hfile. simpl in Hfile.
  assert (Hnone : files w !! target = None) by congruence.
  destruct (save_as env (ds l) target _) as [r3 w3] eqn:Hsave.
  apply save_as_spec in Hsave. destruct Hsave as (Hc3 & Hd3 & _ & Hsave).
  cbn [cwd dirs files record_effect] in Hc3, Hd3, Hsave.
  destruct r3 as [[]|e3].
  - destruct Hsave as [(_ & Hf3 & _)|([e He] & _)]; [|discriminate He].
    intros [= <- <-]. simpl. rewrite Hc3, Hd3, Hf3, <- Hd0.
    split; [congruence|]. split; [exact Hd1|].
    right. exists l, w0, (Complete (ds l)).
    split; [reflexivity|]. split; [exact Hnone|].
    rewrite Hf1, Hf0. reflexivity.
  - destruct (unlink env target (logged ERROR "Error al guardar" w3))
      as [r5 w5] eqn:Hun.
    apply unlink_spec in Hun. destruct Hun as (Hc5 & Hd5 & _ & Hun).
    cbn [cwd dirs files logged record_effect] in Hc5, Hd5, Hun.
    intros [= <- <-]. simpl. rewrite Hc5, Hd5, Hc3, Hd3, <- Hd0.
    split; [congruence|]. split; [exact Hd1|].
    destruct Hsave as [(He & _)|(_ & [Hf3|(Hf3 & _)])]; [discriminate He| |].
    + left. destruct Hun as [(_ & ->)|(_ & ->)]; rewrite Hf3.
      * rewrite delete_id by exact Hfile. congruence.
      * congruence.
    + destruct Hun as [(_ & Hf5)|(_ & Hf5)]; rewrite Hf5, Hf3.
      * left. rewrite delete_insert_id by exact Hfile. congruence.
      * right. exists l, w0, Partial.
        split; [reflexivity|]. split; [exact Hnone|].
        rewrite Hf1, Hf0. reflexivity.
Qed.

Lemma handle_store_returns_ok (env : Env) (event : Event) (w : World) :
  exists code, fst (handle_store env event w) = Ok code.
Proof.
  rewrite handle_store_eq.
  destruct (handle_store_body env event w) as [[code|e] w']; simpl; eauto.
Qed.

(** X13. Whatever it returns, a call of [handle_store] leaves every file
    that was on the disk as it was, removes no directory, and adds at
    most one file. *)
Theorem handle_store_keeps_the_disk (env : Env) (event : Event)
    (w : World) :
  let w' := snd (handle_store env event w) in
  files w ⊆ files w' /\ dirs w ⊆ dirs w'
  /\ (size (files w') <= S (size (files w)))%nat.
Proof.
  intros w'. subst w'.
  destruct (handle_store env event w) as [r w'] eqn:H. simpl.
  apply handle_store_frame in H.
  destruct H as (_ & Hd & [Hf|(l & w0 & c & _ & Hnone & Hf)]);
    rewrite Hf.
  - split; [reflexivity|]. split; [exact Hd|]. lia.
  - split; [apply insert_subseteq; exact Hnone|]. split; [exact Hd|].
    rewrite map_size_insert_None by exact Hnone. lia.
Qed.

Lemma handle_store_all_frame (env : Env) (events : list Event) :
  forall (w : World),
    let '(rs, w') := handle_store_all env events w in
    length rs = length events
    /\ Forall (fun r => exists code : Z, r = Ok code) rs
    /\ files w ⊆ files w' /\ dirs w ⊆ dirs w'
    /\ (size (files w') <= size (files w) + length events)%nat.
Proof.
  induction events as [|event rest IH]; intros w; simpl.
  - repeat split; auto. lia.
  - destruct (handle_store env event w) as [r w1] eqn:H.
    specialize (IH w1).
    destruct (handle_store_all env rest w1) as [rs w2].
    destruct IH as (Hlen & Hall & Hf & Hd & Hsize).
    pose proof (handle_store_returns_ok env event w) as [code Hcode].
    rewrite H in Hcode. simpl in Hcode.
    apply handle_store_frame in H.
    destruct H as (_ & Hd1 & Hfiles).
    assert (Hsub : files w ⊆ files w1
                   /\ (size (files w1) <= S (size (files w)))%nat).
    { destruct Hfiles as [Hf1|(l & w0 & c & _ & Hnone & Hf1)]; rewrite Hf1.
      - split; [reflexivity|lia].
      - split; [apply insert_subseteq; exact Hnone|].
        rewrite map_size_insert_None by exact Hnone. lia. }
    destruct Hsub as [Hsub Hs1].
    split; [simpl; lia|]. split; [constructor; eauto|].
    split; [etransitivity; eassumption|].
    split; [etransitivity; eassumption|]. lia.
Qed.

(** X14. After any number of objects handled one after the other, every
    file that was on the disk is still there as it was, no directory has
    been removed, there is at most one more file per object, and every
    object has been answered with a code. *)
Theorem handle_store_all_keeps_the_disk (env : Env) (events : list Event)
    (w : World) :
  let rs := fst (handle_store_all env events w) in
  let w' := snd (handle_store_all env events w) in
  length rs = length events
  /\ Forall (fun r => exists code : Z, r = Ok code) rs
  /\ files w ⊆ files w' /\ dirs w ⊆ dirs w'
  /\ (size (files w') <= size (files w) + length events)%nat.
Proof.
  intros rs w'. subst rs w'.
  pose proof (handle_store_all_frame env events w) as H.
  destruct (handle_store_all env events w) as [rs w']. exact H.
Qed.

(** ** [handle_store]: the outcome codes *)

Lemma uid_usable_bool (d : Dataset) (key : string) :
  uid_is_text_or_absent d key = true <-> uid_usable d key.
Proof.
  unfold uid_is_text_or_absent, uid_usable.
  destruct (ds_elements d !! key) as [[|s|z]|]; split; auto; discriminate.
Qed.

Lemma shorten_uid_not_text (d : Dataset) (key : string) (g : value) :
  uid_is_text_or_absent d key = false ->
  shorten_uid (ds_get d key g) = Raise TypeError.
Proof.
  unfold uid_is_text_or_absent, ds_get.
  destruct (ds_elements d !! key) as [[|s|z]|]; try discriminate;
    reflexivity.
Qed.

(** The metadata are read exactly from the readable events. *)
Lemma read_metadata_readable (env : Env) (event : Event) (w : World) :
  if metadata_readable event
  then exists l, fst (read_metadata env event w) = Ok l
  else exists e, fst (read_metadata env event w) = Raise e.
Proof.
  unfold metadata_readable.
  destruct (dataset event) as [d|e] eqn:Hd.
  2:{ unfold read_metadata, bind, lift. rewrite Hd. simpl. eauto. }
  destruct (file_meta event) as [meta|e] eqn:Hm.
  2:{ unfold read_metadata, bind, lift. rewrite Hd, Hm. simpl. eauto. }
  destruct (uid_is_text_or_absent d "StudyInstanceUID") eqn:H1.
  2:{ unfold read_metadata, bind, lift, generate_uid. rewrite Hd, Hm.
      rewrite ds_get_set_file_meta, (shorten_uid_not_text _ _ _ H1).
      simpl. eauto. }
  destruct (uid_is_text_or_absent d "SeriesInstanceUID") eqn:H2.
  2:{ apply uid_usable_bool in H1.
      destruct (shorten_uid_usable d _ (uid_source env (uid_calls w)) H1)
        as [v1 Hv1].
      unfold read_metadata, bind, lift, generate_uid. rewrite Hd, Hm.
      rewrite !ds_get_set_file_meta, Hv1.
      rewrite (shorten_uid_not_text _ _ _ H2). simpl. eauto. }
  destruct (uid_is_text_or_absent d "SOPInstanceUID") eqn:H3.
  2:{ apply uid_usable_bool in H1, H2.
      destruct (shorten_uid_usable d _ (uid_source env (uid_calls w)) H1)
        as [v1 Hv1].
      destruct (shorten_uid_usable d _
                  (uid_source env (S (uid_calls w))) H2) as [v2 Hv2].
      unfold read_metadata, bind, lift, generate_uid. rewrite Hd, Hm.
      rewrite !ds_get_set_file_meta, Hv1.
      cbn [uid_calls set_uid_calls record_effect]. rewrite Hv2.
      rewrite (shorten_uid_not_text _ _ _ H3). simpl. eauto. }
  apply uid_usable_bool in H1, H2, H3.
  destruct (read_metadata_total env event w d meta Hd Hm H1 H2 H3)
    as (l & w0 & Hread).
  exists l. rewrite Hread. reflexivity.
Qed.

(** X15. When the metadata cannot be read, because the dataset or the
    file meta information does not decode or because one of the three
    identifiers is in the dataset with a value that is [None] or an
    integer, [handle_store] returns 0xC003 and leaves the files and the
    directories as they were: nothing is created for such an object. *)
Theorem handle_store_unreadable_metadata (env : Env) (event : Event)
    (w : World) :
  metadata_readable event = false ->
  fst (handle_store env event w) = Ok 0xC003
  /\ files (snd (handle_store env event w)) = files w
  /\ dirs (snd (handle_store env event w)) = dirs w.
Proof.
  intros Hunreadable.
  pose proof (read_metadata_readable env event w) as Hr.
  rewrite Hunreadable in Hr. destruct Hr as [e He].
  rewrite handle_store_eq, handle_store_body_eq.
  destruct (read_metadata env event w) as [[l|e'] w0] eqn:Hread;
    [discriminate He|].
  pose proof (read_metadata_fs _ _ _ _ _ Hread) as (_ & Hd0 & Hf0).
  simpl. auto.
Qed.

(** X16. When [handle_store] returns Success, something is at the target
    path afterwards; and if no file was there before and no directory is
    there afterwards, what is there is the complete object: the decoded
    dataset with the file meta information of the event attached. *)
Theorem handle_store_success_stores (env : Env) (event : Event)
    (w w' : World) (d : Dataset) (meta : FileMeta) :
  dataset event = Ok d -> file_meta event = Ok meta ->
  handle_store env event w = (Ok 0x0000, w') ->
  exists l w0,
    read_metadata env event w = (Ok l, w0)
    /\ path_exists w' (target_path w0 l) = true
    /\ (files w !! target_path w0 l = None ->
        is_dir w' (target_path w0 l) = false ->
        files w' !! target_path w0 l
        = Some (Complete (set_file_meta d meta))).
Proof.
  intros Hd Hm H.
  assert (Hcsp : exists l w0 sp w1,
             read_metadata env event w = (Ok l, w0)
             /\ create_safe_path env (base_path w0) (folders l) w0
                = (Ok (Some sp), w1)).
  { rewrite handle_store_eq, handle_store_body_eq in H.
    destruct (read_metadata env event w) as [[l|e] w0]; [|discriminate H].
    destruct (create_safe_path env (base_path w0) (folders l) w0)
      as [[[sp|]|e] w1] eqn:E; [|discriminate H|discriminate H].
    exists l, w0, sp, w1. split; [reflexivity|exact E]. }
  destruct Hcsp as (l & w0 & sp & w1 & Hread & Hcsp).
  exists l, w0. split; [exact Hread|].
  destruct (handle_store_success_inv _ _ _ _ _ _ _ _ Hread Hcsp H)
    as (_ & HdA & Hex & Hf).
  pose proof (create_safe_path_loop_path _ _ _ _ _ _ Hcsp) as Hsp.
  rewrite Hsp, target_path_fold in Hex, Hf.
  split; [exact Hex|]. intros Hnone Hnodir.
  pose proof (read_metadata_fs _ _ _ _ _ Hread) as (_ & _ & Hf0).
  pose proof (create_safe_path_loop_grows _ _ _ _ _ _ Hcsp)
    as [(_ & Hf1 & _) _].
  apply read_metadata_inv in Hread.
  destruct Hread as [(d' & meta' & Hd' & Hm' & Hds & _) _].
  rewrite Hd in Hd'. injection Hd' as <-.
  rewrite Hm in Hm'. injection Hm' as <-.
  destruct Hf as [Hf|Hf].
  - exfalso. unfold path_exists in Hex. rewrite Hnodir in Hex. simpl in Hex.
    unfold is_file in Hex. apply bool_decide_eq_true in Hex.
    rewrite Hf, Hf1, Hf0, Hnone in Hex. destruct Hex as [x Hx].
    discriminate Hx.
  - rewrite Hf, lookup_insert_eq, Hds. reflexivity.
Qed.

Lemma handle_store_success_stores_witness :
  exists w',
    handle_store quiet_env scenario_B empty_disk = (Ok 0x0000, w')
    /\ files w' !! scenario_B_file
       = Some (Complete (ds scenario_B_locals)).
Proof.
  pose (w' := snd (handle_store quiet_env scenario_B empty_disk)).
  assert (Hrun : handle_store quiet_env scenario_B empty_disk
                 = (Ok 0x0000, w'))
    by (refine (run_result (handle_store quiet_env scenario_B) empty_disk
                  _ _); vm_compute; reflexivity).
  exists w'. split; [exact Hrun|].
  destruct (handle_store_success_stores quiet_env scenario_B empty_disk w'
              _ _ eq_refl eq_refl Hrun) as (l & w0 & Hread & _ & Hst).
  assert (Hl : (Ok l : result Locals) = Ok scenario_B_locals).
  { change (Ok l) with (fst (Ok l, w0)). rewrite <- Hread.
    vm_compute. reflexivity. }
  injection Hl as ->.
  assert (Hw0 : cwd w0 = cwd empty_disk)
    by (apply (read_metadata_fs _ _ _ _ _ Hread)).
  assert (Ht : target_path w0 scenario_B_locals = scenario_B_file).
  { unfold target_path, base_path. rewrite Hw0. vm_compute. reflexivity. }
  rewrite Ht in Hst. apply Hst.
  - reflexivity.
  - vm_compute. reflexivity.
Defined.

(** X17. When the write fails and the operating system does not refuse
    the deletion, the files on the disk after the call are exactly those
    of before: the partial file, if any, is gone. *)
Theorem failed_write_restores_files (env : Env) (event : Event)
    (w w' : World) :
  (forall w0 p, unlink_refused env w0 p = false) ->
  handle_store env event w = (Ok 0xC002, w') ->
  files w' = files w.
Proof.
  intros Hun. rewrite handle_store_eq, handle_store_body_eq.
  destruct (read_metadata env event w) as [[l|e] w0] eqn:Hread;
    [|discriminate].
  pose proof (read_metadata_fs _ _ _ _ _ Hread) as (_ & _ & Hf0).
  destruct (create_safe_path env (base_path w0) (folders l) w0)
    as [[[sp|]|e] w1] eqn:Hcsp; [|discriminate|discriminate].
  pose proof (create_safe_path_loop_grows _ _ _ _ _ _ Hcsp)
    as [(_ & Hf1 & _) _].
  cbv zeta. set (target := joinpath sp (filename l)).
  destruct (path_exists (record_effect (ExistsCheck target) w1) target)
    eqn:Hex; [discriminate|].
  apply orb_false_elim in Hex. destruct Hex as [Hdir Hfile].
  apply is_file_false in Hfile. simpl in Hfile.
  destruct (save_as env (ds l) target _) as [[[]|e3] w3] eqn:Hsave;
    [discriminate|].
  apply save_as_spec in Hsave. destruct Hsave as (_ & Hd3 & _ & Hsave).
  cbn [dirs files record_effect] in Hd3, Hsave.
  destruct Hsave as [(He & _)|(_ & Hf3)]; [discriminate He|].
  assert (Hdir3 : is_dir (record_effect (Unlink target)
                            (logged ERROR "Error al guardar" w3)) target
                  = false).
  { rewrite <- Hdir. unfold is_dir. simpl. rewrite Hd3. reflexivity. }
  unfold unlink. rewrite Hun, Hdir3. intros [= <-]. simpl.
  destruct Hf3 as [->|(-> & _)].
  - rewrite delete_id by exact Hfile. congruence.
  - rewrite delete_insert_id by exact Hfile. congruence.
Qed.

Lemma failed_write_restores_files_witness :
  files (snd (handle_store (failing_write_env false) scenario_B empty_disk))
  = files empty_disk.
Proof.
  apply (failed_write_restores_files (failing_write_env false) scenario_B).
  - reflexivity.
  - refine (run_result (handle_store (failing_write_env false) scenario_B)
              empty_disk _ _); vm_compute; reflexivity.
Defined.

Lemma handle_store_unreadable_metadata_witness :
  fst (handle_store quiet_env scenario_none_uid empty_disk) = Ok 0xC003
  /\ files (snd (handle_store quiet_env scenario_none_uid empty_disk))
     = files empty_disk
  /\ dirs (snd (handle_store quiet_env scenario_none_uid empty_disk))
     = dirs empty_disk.
Proof.
  apply (handle_store_unreadable_metadata quiet_env scenario_none_uid
           empty_disk).
  reflexivity.
Defined.

(** ** [handle_store]: a second call *)

(** X18. A partial file passes for the object. Let the dataset have its
    three identifiers, let the write of a first call have failed (0xC002)
    and let the partial file not have been deleted. A second call on the
    same instance, under any environment, reads the same metadata and
    resolves the same target path; and if it ensures the directory levels
    and its existence check answers, the answer is that the file exists:
    the call returns Success and writes nothing, and the partial file
    stays. *)
Theorem partial_file_passes_for_stored (env env' : Env) (event : Event)
    (w w0 wA : World) (l : Locals) :
  read_metadata env event w = (Ok l, w0) ->
  has_uids (ds l) ->
  handle_store env event w = (Ok 0xC002, wA) ->
  files wA !! target_path w0 l = Some Partial ->
  forall r wA0,
    read_metadata env' event wA = (r, wA0) ->
    r = Ok l
    /\ target_path wA0 l = target_path w0 l
    /\ forall sp wA1 found wA2,
         create_safe_path env' (base_path wA0) (folders l) wA0
         = (Ok (Some sp), wA1) ->
         exists_ (target_path w0 l) wA1 = (Ok found, wA2) ->
         found = true
         /\ exists wB,
              handle_store env' event wA = (Ok 0x0000, wB)
              /\ files wB = files wA
              /\ files wB !! target_path w0 l = Some Partial.
Proof.
  intros Hread Hu HA Hpartial r wA0 HrA.
  pose proof (read_metadata_fs _ _ _ _ _ Hread) as (Hc0 & _).
  pose proof (handle_store_frame _ _ _ _ _ HA) as (HcA & _).
  pose proof (read_metadata_again _ _ _ _ _ _ _ _ _ Hread Hu HrA) as ->.
  pose proof (read_metadata_fs _ _ _ _ _ HrA) as (HcA0 & _).
  assert (Htarget : target_path wA0 l = target_path w0 l).
  { unfold target_path, base_path. congruence. }
  split; [reflexivity|]. split; [exact Htarget|].
  intros sp wA1 found wA2 Hcsp Hcheck.
  assert (HexA : path_exists wA (target_path wA0 l) = true).
  { rewrite Htarget. unfold path_exists, is_file. rewrite Hpartial.
    rewrite (bool_decide_eq_true_2 (is_Some (Some Partial))) by eauto.
    apply orb_true_r. }
  rewrite <- Htarget in Hcheck.
  destruct (handle_store_found _ _ _ _ _ _ _ _ _ HrA Hcsp HexA Hcheck)
    as (Hfound & Hstore & Hfiles).
  split; [exact Hfound|].
  eexists. split; [exact Hstore|]. simpl. split; [exact Hfiles|].
  rewrite Hfiles. exact Hpartial.
Qed.

Lemma partial_file_passes_for_stored_witness :
  let wA := snd (handle_store (failing_write_env true) scenario_B
                   empty_disk) in
  exists wB,
    handle_store quiet_env scenario_B wA = (Ok 0x0000, wB)
    /\ files wB = files wA
    /\ files wB !! target_path scenario_B_read scenario_B_locals
       = Some Partial.
Proof.
  intros wA.
  pose (wA0 := snd (read_metadata quiet_env scenario_B wA)).
  pose (wA1 := snd (create_safe_path quiet_env (base_path wA0)
                      (folders scenario_B_locals) wA0)).
  pose (target := target_path scenario_B_read scenario_B_locals).
  pose (wA2 := snd (exists_ target wA1)).
  destruct (partial_file_passes_for_stored (failing_write_env true)
              quiet_env scenario_B empty_disk scenario_B_read wA
              scenario_B_locals) with (r := Ok scenario_B_locals)
                                      (wA0 := wA0)
    as (_ & _ & Hcheck).
  - refine (run_result (read_metadata (failing_write_env true) scenario_B)
              empty_disk _ _); vm_compute; reflexivity.
  - repeat split; vm_compute; eexists; reflexivity.
  - refine (run_result (handle_store (failing_write_env true) scenario_B)
              empty_disk _ _); vm_compute; reflexivity.
  - vm_compute. reflexivity.
  - refine (run_result (read_metadata quiet_env scenario_B) wA _ _);
    vm_compute; reflexivity.
  - destruct (Hcheck scenario_B_dir wA1 true wA2) as (_ & Hstored).
    + refine (run_result
                (create_safe_path quiet_env (base_path wA0)
                   (folders scenario_B_locals)) wA0 _ _);
      vm_compute; reflexivity.
    + refine (run_result (exists_ target) wA1 _ _); vm_compute; reflexivity.
    + exact Hstored.
Defined.

(** X19. When [handle_store] returns Success, the patient, study and
    series directories it resolved all exist afterwards. *)
Theorem handle_store_success_hierarchy (env : Env) (event : Event)
    (w w' : World) :
  handle_store env event w = (Ok 0x0000, w') ->
  exists l w0,
    read_metadata env event w = (Ok l, w0)
    /\ Forall (fun q => is_dir w' q = true)
         (levels (base_path w0) (folders l)).
Proof.
  intros H.
  assert (Hcsp : exists l w0 sp w1,
             read_metadata env event w = (Ok l, w0)
             /\ create_safe_path env (base_path w0) (folders l) w0
                = (Ok (Some sp), w1)).
  { rewrite handle_store_eq, handle_store_body_eq in H.
    destruct (read_metadata env event w) as [[l|e] w0]; [|discriminate H].
    destruct (create_safe_path env (base_path w0) (folders l) w0)
      as [[[sp|]|e] w1] eqn:E; [|discriminate H|discriminate H].
    exists l, w0, sp, w1. split; [reflexivity|exact E]. }
  destruct Hcsp as (l & w0 & sp & w1 & Hread & Hcsp).
  exists l, w0. split; [exact Hread|].
  destruct (handle_store_success_inv _ _ _ _ _ _ _ _ Hread Hcsp H)
    as (_ & HdA & _).
  apply create_safe_path_loop_levels in Hcsp. destruct Hcsp as [_ Hall].
  eapply Forall_impl; [exact Hall|]. intros q Hq. simpl.
  unfold is_dir in *. rewrite HdA. exact Hq.
Qed.

Lemma handle_store_success_hierarchy_witness :
  exists w',
    handle_store quiet_env scenario_B empty_disk = (Ok 0x0000, w')
    /\ is_dir w' [lit "srv"; lit "estudios_recibidos"; lit "John_Doe_P1"]
       = true.
Proof.
  pose (w' := snd (handle_store quiet_env scenario_B empty_disk)).
  assert (Hrun : handle_store quiet_env scenario_B empty_disk
                 = (Ok 0x0000, w'))
    by (refine (run_result (handle_store quiet_env scenario_B) empty_disk
                  _ _); vm_compute; reflexivity).
  exists w'. split; [exact Hrun|].
  destruct (handle_store_success_hierarchy quiet_env scenario_B empty_disk
              w' Hrun) as (l & w0 & Hread & Hall).
  assert (Hl : (Ok l : result Locals) = Ok scenario_B_locals).
  { change (Ok l) with (fst (Ok l, w0)). rewrite <- Hread.
    vm_compute. reflexivity. }
  injection Hl as ->.
  assert (Hw0 : cwd w0 = cwd empty_disk)
    by (apply (read_metadata_fs _ _ _ _ _ Hread)).
  unfold base_path in Hall. rewrite Hw0 in Hall.
  apply Forall_cons in Hall. apply Hall.
Defined.

(** ** Where the object goes *)

Lemma base_path_eq (w : World) :
  base_path w = cwd w ++ [DICOMServerConfig.OUTPUT_FOLDER].
Proof.
  unfold base_path. apply joinpath_one_component.
  - reflexivity.
  - vm_compute. auto 20.
Qed.

(** X20. When none of StudyDate, Modality, the instance number and the
    three short identifiers has a slash, the object goes exactly five
    levels below the working directory: output folder, patient folder,
    study folder, series folder, file. *)
Theorem slash_free_target_path (env : Env) (event : Event) (w w0 : World)
    (l : Locals) :
  read_metadata env event w = (Ok l, w0) ->
  slash_free l = true ->
  target_path w0 l
  = cwd w ++ [DICOMServerConfig.OUTPUT_FOLDER; patient_folder l;
              study_folder l; series_folder l; filename l].
Proof.
  intros Hread Hfree.
  pose proof (read_metadata_fs _ _ _ _ _ Hread) as (Hc0 & _).
  apply read_metadata_inv in Hread.
  destruct Hread as [(d & meta & _ & _ & _ & Hpf & _) _].
  unfold slash_free in Hfree.
  repeat (apply andb_prop in Hfree; destruct Hfree as [Hfree ?]).
  unfold target_path. rewrite base_path_eq, Hc0.
  rewrite (joinpath_one_component _ (patient_folder l)).
  2:{ rewrite Hpf. apply clean_no_slash, get_patient_folder_name_clean. }
  2:{ rewrite Hpf. apply get_patient_folder_name_underscore. }
  rewrite (joinpath_one_component _ (study_folder l)).
  2:{ unfold study_folder. rewrite !no_slash_app, Hfree.
      match goal with H : no_slash (py_str (study_uid l)) = true |- _ =>
        rewrite H end. reflexivity. }
  2:{ unfold study_folder. apply in_or_app. right. left. reflexivity. }
  rewrite (joinpath_one_component _ (series_folder l)).
  2:{ unfold series_folder. rewrite !no_slash_app.
      repeat match goal with H : no_slash _ = true |- _ =>
        rewrite H; clear H end. reflexivity. }
  2:{ unfold series_folder. apply in_or_app. right. left. reflexivity. }
  rewrite (joinpath_one_component _ (filename l)).
  2:{ unfold filename. rewrite !no_slash_app.
      repeat match goal with H : no_slash _ = true |- _ =>
        rewrite H; clear H end. reflexivity. }
  2:{ unfold filename. apply in_or_app. right. left. reflexivity. }
  rewrite <- !app_assoc. reflexivity.
Qed.

Lemma slash_free_target_path_witness :
  target_path scenario_B_read scenario_B_locals
  = cwd empty_disk
    ++ [DICOMServerConfig.OUTPUT_FOLDER; patient_folder scenario_B_locals;
        study_folder scenario_B_locals; series_folder scenario_B_locals;
        filename scenario_B_locals].
Proof.
  apply (slash_free_target_path quiet_env scenario_B empty_disk).
  - refine (run_result (read_metadata quiet_env scenario_B) empty_disk _ _);
    vm_compute; reflexivity.
  - reflexivity.
Defined.

(** X21. A Modality that begins with a slash takes the object out of the
    output folder: the series directory and the target path are the
    components of the series folder name and of the filename, from the
    root, whatever the working directory, the output folder and the
    patient are. *)
Theorem absolute_modality_leaves_output_folder (env : Env) (event : Event)
    (w w0 : World) (l : Locals) (d : Dataset) (m : pystr) :
  dataset event = Ok d ->
  read_metadata env event w = (Ok l, w0) ->
  ds_elements d !! "Modality" = Some (VStr (47%N :: m)) ->
  fold_left joinpath (folders l) (base_path w0)
  = path_parts (series_folder l)
  /\ target_path w0 l = path_parts (filename l).
Proof.
  intros Hd Hread Hm.
  apply read_metadata_inv in Hread.
  destruct Hread as [(d' & meta & Hd' & _ & Hds & _ & _ & _ & _
                      & Hmod & _) _].
  rewrite Hd in Hd'. injection Hd' as <-.
  rewrite Hds, ds_get_set_file_meta, (ds_get_present _ _ _ _ Hm) in Hmod.
  unfold target_path, folders, series_folder, filename. simpl fold_left.
  rewrite Hmod. split; reflexivity.
Qed.

Lemma absolute_modality_leaves_output_folder_witness :
  map fst (map_to_list
             (files (snd (handle_store quiet_env scenario_absolute_modality
                            empty_disk))))
  = [[lit "tmp"; lit "x_0003_.10008.5.1.7.dcm"]]
  /\ exists l w0,
       read_metadata quiet_env scenario_absolute_modality empty_disk
       = (Ok l, w0)
       /\ target_path w0 l = [lit "tmp"; lit "x_0003_.10008.5.1.7.dcm"].
Proof.
  split; [vm_compute; reflexivity|].
  destruct (read_metadata_total quiet_env scenario_absolute_modality
              empty_disk _ _ eq_refl eq_refl) as (l & w0 & Hread);
    [vm_compute; exact I ..|].
  exists l, w0. split; [exact Hread|].
  destruct (absolute_modality_leaves_output_folder quiet_env
              scenario_absolute_modality empty_disk w0 l _ (lit "tmp/x")
              eq_refl Hread) as [_ Ht]; [vm_compute; reflexivity|].
  rewrite Ht.
  assert (Hl : (Ok (filename l) : result pystr)
               = Ok (lit "/tmp/x_0003_.10008.5.1.7.dcm")).
  { change (Ok (filename l))
      with (match fst (Ok l, w0) with
            | Ok l => Ok (filename l)
            | Raise e => Raise e
            end).
    rewrite <- Hread. vm_compute. reflexivity. }
  injection Hl as ->. vm_compute. reflexivity.
Defined.

(** ** The instance number *)

Lemma zfill_length (width : nat) (s : pystr) :
  length (zfill width s) = Nat.max width (length s).
Proof.
  unfold zfill. destruct (width <=? length s)%nat eqn:H.
  - apply Nat.leb_le in H. lia.
  - apply Nat.leb_gt in H.
    destruct s as [|c r]; [rewrite repeat_length; simpl; lia|].
    destruct ((c =? 43) || (c =? 45))%N; simpl;
      rewrite length_app, repeat_length; simpl in *; lia.
Qed.

(** X22. The instance number of the filename has at least four
    characters and is never cut: it is as long as the longer of four and
    the text of InstanceNumber, and it is that text when the text has
    four characters or more. *)
Theorem instance_number_padded (env : Env) (event : Event) (w w0 : World)
    (l : Locals) :
  read_metadata env event w = (Ok l, w0) ->
  let text := py_str (ds_get (ds l) "InstanceNumber" (VStr (lit "0"))) in
  length (instance_number l) = Nat.max 4 (length text)
  /\ (instance_number l = text \/ (length text < 4)%nat).
Proof.
  intros Hread text.
  apply read_metadata_inv in Hread.
  destruct Hread as [(d & meta & _ & _ & _ & _ & _ & _ & _ & _ & Hnum & _) _].
  fold text in Hnum. rewrite Hnum. split; [apply zfill_length|].
  unfold zfill. destruct (4 <=? length text)%nat eqn:H; [left; reflexivity|].
  right. apply Nat.leb_gt in H. exact H.
Qed.

Lemma instance_number_padded_witness :
  length (instance_number scenario_B_locals) = 4%nat.
Proof.
  apply (instance_number_padded quiet_env scenario_B empty_disk
           scenario_B_read scenario_B_locals).
  refine (run_result (read_metadata quiet_env scenario_B) empty_disk _ _);
    vm_compute; reflexivity.
Defined.

(** ** No object without a directory *)


